(** * Alpaca-Buyer: the allocation logic of [main.py]

    A shallow embedding of the sizing rules and of the per-row loop of
    [run_bot], with Python's [float] as IEEE 754 binary64 (Rocq's primitive
    floats), [str] as a sequence of Unicode code points, exceptions as an
    error monad and the brokerage as a state-passing collaborator. *)

From Stdlib Require Import ZArith NArith List Floats Lia.
From stdpp Require Import base option list gmap sets fin_sets strings.

#[local] Set Warnings "-inexact-float,-clear-no-such-hyp".
#[local] Open Scope float_scope.

(** ** Exceptions *)

(** The exception classes the modelled code can meet.  All of them derive
    from [Exception]; [BrokerError] stands for whatever the brokerage client
    raises. *)
Inductive exn : Type :=
  | ValueError
  | ZeroDivisionError
  | BrokerError (code : N).

Inductive Result (A : Type) : Type :=
  | Ok (a : A)
  | Raise (e : exn).
Arguments Ok {A} a.
Arguments Raise {A} e.

#[global] Instance Result_ret : MRet Result := fun A a => Ok a.
#[global] Instance Result_bind : MBind Result := fun A B k c =>
  match c with
  | Ok a => k a
  | Raise e => Raise e
  end.

#[global] Instance Result_fmap : FMap Result := fun A B f c =>
  match c with
  | Ok a => Ok (f a)
  | Raise e => Raise e
  end.

(** [try: c except ValueError: h] *)
Definition except_ValueError {A : Type} (c : Result A) (h : Result A)
  : Result A :=
  match c with
  | Raise ValueError => h
  | _ => c
  end.

(** ** Python strings *)

(** The [str] methods [main.py] calls.  Whitespace is what [str.isspace]
    accepts, which is also what [str.strip] removes. *)

Module PyStr.

(** A [str] is a sequence of code points. *)
Definition codepoint : Type := N.
Definition str : Type := list codepoint.

(** An ASCII literal as a [str]. *)
Definition lit (s : string) : str :=
  map Ascii.N_of_ascii (String.list_ascii_of_string s).

(** [str.isspace] on one code point (the Unicode White_Space characters
    plus the four ASCII separators 0x1c-0x1f). *)
Definition isspace (c : codepoint) : bool :=
  ((9 <=? c) && (c <=? 13) || (28 <=? c) && (c <=? 32)
   || (c =? 0x85) || (c =? 0xa0) || (c =? 0x1680)
   || (0x2000 <=? c) && (c <=? 0x200a)
   || (c =? 0x2028) || (c =? 0x2029) || (c =? 0x202f)
   || (c =? 0x205f) || (c =? 0x3000))%N.

Fixpoint lstrip (s : str) : str :=
  match s with
  | c :: s' => if isspace c then lstrip s' else s
  | [] => []
  end.

Definition rstrip (s : str) : str := rev (lstrip (rev s)).

(** [s.strip()] *)
Definition strip (s : str) : str := rstrip (lstrip s).

(** [s.replace(c, "")] for a one-character pattern. *)
Definition remove_char (c : codepoint) (s : str) : str :=
  filter (fun d => d ≠ c) s.

(** Upper-casing restricted to the ASCII letters; the loop below takes
    [str.upper] as a parameter, this is the instance used on ASCII data. *)
Definition ascii_upper (s : str) : str :=
  map (fun c => if ((97 <=? c) && (c <=? 122))%N then (c - 32)%N else c) s.

End PyStr.
Import PyStr.

(** ** Python floats *)

(** The three operations of the interpreter that [main.py] applies to
    floats: the constructor [float] on a [str], true division and [round]
    with a number of digits.  They follow CPython: [float] accepts what
    [PyFloat_FromString] accepts and converts with correct rounding,
    [round] rounds the exact binary value to the requested decimals (ties
    to even) and converts the decimal result back. *)

Module PyFloat.

(** *** Decimal to binary64, correctly rounded *)

(** [±m * 10^e10] rounded to the nearest double, ties to even, overflowing
    to an infinity and underflowing to a (signed) zero. *)
Definition of_decimal (neg : bool) (m : N) (e10 : Z) : spec_float :=
  match m with
  | N0 => S754_zero neg
  | Npos p =>
      match e10 with
      | Zneg k =>
          let '(q, e, l) :=
            SFdiv_core_binary prec emax (Zpos p) 0 (Zpos (10 ^ k)) 0 in
          binary_round_aux prec emax neg q e l
      | _ => binary_round prec emax neg (p * Z.to_pos (10 ^ e10)) 0
      end
  end.

(** *** [float(s)] *)

Definition is_ascii_space (c : codepoint) : bool :=
  ((9 <=? c) && (c <=? 13) || (c =? 32))%N.

Definition is_digit (c : codepoint) : bool := ((48 <=? c) && (c <=? 57))%N.

(** The code points of the Unicode decimal digits zero (general category
    Nd, Unicode 14); each starts a run of ten digits. *)
Definition decimal_zeros : list codepoint :=
  [ 0x30; 0x660; 0x6f0; 0x7c0; 0x966; 0x9e6; 0xa66; 0xae6; 0xb66; 0xbe6;
    0xc66; 0xce6; 0xd66; 0xde6; 0xe50; 0xed0; 0xf20; 0x1040; 0x1090;
    0x17e0; 0x1810; 0x1946; 0x19d0; 0x1a80; 0x1a90; 0x1b50; 0x1bb0;
    0x1c40; 0x1c50; 0xa620; 0xa8d0; 0xa900; 0xa9d0; 0xa9f0; 0xaa50;
    0xabf0; 0xff10; 0x104a0; 0x10d30; 0x11066; 0x110f0; 0x11136; 0x111d0;
    0x112f0; 0x11450; 0x114d0; 0x11650; 0x116c0; 0x11730; 0x118e0;
    0x11950; 0x11c50; 0x11d50; 0x11da0; 0x16a60; 0x16ac0; 0x16b50;
    0x1d7ce; 0x1d7d8; 0x1d7e2; 0x1d7ec; 0x1d7f6; 0x1e140; 0x1e2f0;
    0x1e950; 0x1fbf0 ]%N.

(** The decimal value of a digit character, if it is one. *)
Fixpoint to_decimal_in (zs : list codepoint) (c : codepoint) : option N :=
  match zs with
  | [] => None
  | z :: zs' =>
      if ((z <=? c) && (c <? z + 10))%N then Some (c - z)%N
      else to_decimal_in zs' c
  end.
Definition to_decimal : codepoint -> option N := to_decimal_in decimal_zeros.

(** Non-ASCII strings are first brought to ASCII: spaces become a blank,
    decimal digits their ASCII digit, and the first other character a
    question mark that ends the string. *)
Fixpoint transform (s : str) : str :=
  match s with
  | [] => []
  | c :: s' =>
      if (c <? 127)%N then c :: transform s'
      else if isspace c then 32%N :: transform s'
      else match to_decimal c with
           | Some d => (48 + d)%N :: transform s'
           | None => [63%N]
           end
  end.

Definition to_ascii (s : str) : str :=
  if forallb (fun c => (c <? 128)%N) s then s else transform s.

Fixpoint lstrip_ascii (s : str) : str :=
  match s with
  | c :: s' => if is_ascii_space c then lstrip_ascii s' else s
  | [] => []
  end.

Definition strip_ascii (s : str) : str :=
  rev (lstrip_ascii (rev (lstrip_ascii s))).

(** Underscores may only stand between two digits; they are dropped. *)
Fixpoint drop_underscores (prev : codepoint) (s : str) : option str :=
  match s with
  | [] => if (prev =? 95)%N then None else Some []
  | c :: s' =>
      if (c =? 95)%N then
        if is_digit prev then drop_underscores c s' else None
      else if (prev =? 95)%N && negb (is_digit c) then None
      else option_map (cons c) (drop_underscores c s')
  end.

(** Leading digits of [s], most significant first, and what follows. *)
Fixpoint span_digits (s : str) : list N * str :=
  match s with
  | c :: s' =>
      if is_digit c then
        let '(ds, r) := span_digits s' in ((c - 48)%N :: ds, r)
      else ([], s)
  | [] => ([], [])
  end.

Definition digits_value (ds : list N) : N :=
  fold_left (fun acc d => (10 * acc + d)%N) ds 0%N.

(** An optional sign: [true] for a minus. *)
Definition read_sign (s : str) : bool * str :=
  match s with
  | 43%N :: s' => (false, s')
  | 45%N :: s' => (true, s')
  | _ => (false, s)
  end.

(** The exponent part, consumed only when it has a digit. *)
Definition read_exponent (s : str) : Z * str :=
  match s with
  | c :: s' =>
      if ((c =? 101) || (c =? 69))%N then
        let '(eneg, s1) := read_sign s' in
        let '(ds, r) := span_digits s1 in
        match ds with
        | [] => (0%Z, s)
        | _ => let v := Z.of_N (digits_value ds) in
               ((if eneg then - v else v)%Z, r)
        end
      else (0%Z, s)
  | [] => (0%Z, [])
  end.

(** A decimal numeral [sign digits [. digits] [exponent]] with at least
    one digit, read to the end of the string. *)
Definition read_decimal (s : str) : option spec_float :=
  let '(neg, s0) := read_sign s in
  let '(ip, s1) := span_digits s0 in
  let '(fp, s2) :=
    match s1 with
    | 46%N :: s1' => span_digits s1'
    | _ => ([], s1)
    end in
  match ip ++ fp with
  | [] => None
  | ds =>
      let '(e, s3) := read_exponent s2 in
      match s3 with
      | [] => Some (of_decimal neg (digits_value ds)
                               (e - Z.of_nat (length fp)))
      | _ => None
      end
  end.

Definition lower (c : codepoint) : codepoint :=
  if ((65 <=? c) && (c <=? 90))%N then (c + 32)%N else c.

(** [inf], [infinity] and [nan] in any case, with an optional sign. *)
Definition read_inf_nan (s : str) : option spec_float :=
  let '(neg, s0) := read_sign s in
  let w := map lower s0 in
  if bool_decide (w = lit "inf") || bool_decide (w = lit "infinity")
  then Some (S754_infinity neg)
  else if bool_decide (w = lit "nan") then Some S754_nan
  else None.

Definition parse (s : str) : option spec_float :=
  match strip_ascii (to_ascii s) with
  | [] => None
  | t =>
      match (if existsb (N.eqb 95) t then drop_underscores 0%N t
             else Some t) with
      | None => None
      | Some t' =>
          match read_decimal t' with
          | Some x => Some x
          | None => read_inf_nan t'
          end
      end
  end.

(** [float(s)] for a [str] argument: the value, or [ValueError]. *)
Definition float_of_str (s : str) : Result float :=
  match parse s with
  | Some x => Ok (SF2Prim x)
  | None => Raise ValueError
  end.

(** *** Arithmetic *)

(** [a / b]: division by a zero of either sign raises. *)
Definition truediv (a b : float) : Result float :=
  if b =? 0 then Raise ZeroDivisionError else Ok (a / b).

(** *** [round(x, ndigits)] for [ndigits >= 0] *)

(** The integer nearest to [n / d], ties to even. *)
Definition div_half_even (n d : Z) : Z :=
  let q := (n / d)%Z in
  let r := (n mod d)%Z in
  match (2 * r ?= d)%Z with
  | Lt => q
  | Gt => (q + 1)%Z
  | Eq => if Z.even q then q else (q + 1)%Z
  end.

(** The exact value is rounded to [ndigits] decimals, ties to even, and
    the decimal result is converted back to the nearest double. *)
Definition round (x : float) (ndigits : N) : float :=
  match Prim2SF x with
  | S754_finite s m e =>
      let scaled := (Zpos m * 10 ^ Z.of_N ndigits)%Z in
      let n := match e with
               | Zneg k => div_half_even scaled (Zpos (2 ^ k))
               | _ => (scaled * 2 ^ e)%Z
               end in
      SF2Prim (of_decimal s (Z.to_N n) (- Z.of_N ndigits))
  | _ => x
  end.

End PyFloat.

(** ** [main.py]: helpers and core allocation logic *)

Module Main.
Import PyFloat.

(** [safe_float(value)] *)
Definition safe_float (value : option str) : Result (option float) :=
  match value with
  | None => Ok None
  | Some value =>
      let value := strip value in
      if bool_decide (value = []) then Ok None
      else
        (* Strip any % signs *)
        let value := remove_char 37%N value in
        except_ValueError (x ← float_of_str value; mret (Some x)) (Ok None)
  end.

Definition ICON_MULTIPLIERS : gmap str float :=
  {[ [0x1f48e%N] := 1.0;
     [0x1f4a5%N] := 0.9;
     [0x1f680%N] := 0.8;
     [0x2728%N] := 0.7;
     [0x1f4ca%N] := 0.6 ]}.

(** [get_bracket_pct(percent_down)] *)
Definition get_bracket_pct (percent_down : float) : option float :=
  if percent_down <? 0 then None
  else if (0 <=? percent_down) && (percent_down <=? 25) then Some 0.05
  else if (25 <? percent_down) && (percent_down <=? 50) then Some 0.10
  else if (50 <? percent_down) && (percent_down <=? 75) then Some 0.15
  else Some 0.20.

(** The sentiment multiplier of [compute_order_notional]: the default
    0.1 unless the entry is present, not blank, and parses to a positive
    number. *)
Definition sentiment_mult (sentiment_raw : option str) : Result float :=
  match sentiment_raw with
  | Some raw =>
      if bool_decide (strip raw ≠ []) then
        s_val ← safe_float sentiment_raw;
        match s_val with
        | Some s_val => if 0 <? s_val then Ok s_val else Ok 0.1
        | None => Ok 0.1
        end
      else Ok 0.1
  | None => Ok 0.1
  end.

(** [compute_order_notional], over the division it uses: [None] when the
    row is to be skipped. *)
Definition compute_order_notional_with
    (divide : float -> float -> Result float)
    (buying_power percent_down : float) (icon : option str)
    (long_ma price : float) (sentiment_raw : option str)
  : Result (option float) :=
  (* Bracket based on percent down *)
  match get_bracket_pct percent_down with
  | None => Ok None
  | Some bracket_pct =>
      (* Icon multiplier (must exist, else skip). *)
      let icon := strip (default [] icon) in
      match ICON_MULTIPLIERS !! icon with
      | None => Ok None
      | Some icon_mult =>
          if price <=? 0 then Ok None
          else
            (* Long MA / Price multiplier *)
            ma_price_factor ← divide long_ma price;
            s_mult ← sentiment_mult sentiment_raw;
            let base_alloc := buying_power * bracket_pct in
            let notional :=
              base_alloc * icon_mult * ma_price_factor * s_mult in
            Ok (Some notional)
      end
  end.

(** [compute_order_notional(buying_power, percent_down, icon, long_ma,
    price, sentiment_raw)] *)
Definition compute_order_notional :
    float -> float -> option str -> float -> float -> option str ->
    Result (option float) :=
  compute_order_notional_with truediv.

(** ** [main.py]: the row loop of [run_bot] *)

(* Column indices (0-based) *)
Definition COL_TICKER : nat := 0.
Definition COL_PRICE : nat := 1.
Definition COL_PCT_DOWN : nat := 2.
Definition COL_LONG_MA : nat := 9.
Definition COL_ICON : nat := 15.
Definition COL_SENTIMENT : nat := 16.

Definition MIN_NOTIONAL : float := 1.0.

(** The request handed to the brokerage: a day market order on the buy
    side. *)
Record MarketOrderRequest : Type := mkRequest {
  symbol : str;
  notional : float
}.

Inductive Skip : Type :=
  | NoSymbol
  | DuplicateSymbol
  | MissingNumeric
  | NotionalNone
  | BelowMinNotional.

(** [row[idx] if idx < len(row) else ""] *)
Definition cell (row : list str) (idx : nat) : str := default [] (row !! idx).

Section RunBot.
(** [str.upper], the brokerage (its state, the orders it returns) and
    its [submit_order], which answers with an order or raises. *)
Variable upper : str -> str.
Variables World Order : Type.
Variable submit_order :
  World -> MarketOrderRequest -> World * Result Order.

(** What one iteration of the loop does with its row. *)
Inductive Event : Type :=
  | Skipped (why : Skip)
  | OrderSubmitted (req : MarketOrderRequest) (order : Order)
  | OrderFailed (req : MarketOrderRequest) (e : exn).

Record RunState : Type := mkState {
  seen_symbols : gset str;
  orders_submitted : nat;
  broker : World
}.

Definition initial (w : World) : RunState :=
  {| seen_symbols := ∅; orders_submitted := 0; broker := w |}.

(** The body of the [for] loop. *)
Definition process_row (buying_power : float) (st : RunState)
    (row : list str) : Result (RunState * Event) :=
  let symbol := upper (strip (cell row COL_TICKER)) in
  let price_str := cell row COL_PRICE in
  let pct_down_str := cell row COL_PCT_DOWN in
  let long_ma_str := cell row COL_LONG_MA in
  let icon := cell row COL_ICON in
  let sentiment_str := cell row COL_SENTIMENT in
  if bool_decide (symbol = []) then Ok (st, Skipped NoSymbol)
  else if bool_decide (symbol ∈ seen_symbols st)
  then Ok (st, Skipped DuplicateSymbol)
  else
    price ← safe_float (Some price_str);
    pct_down ← safe_float (Some pct_down_str);
    long_ma ← safe_float (Some long_ma_str);
    (* Required data check (A, B, C, J) *)
    match price, pct_down, long_ma with
    | Some price, Some pct_down, Some long_ma =>
        notional ← compute_order_notional buying_power pct_down
                     (Some icon) long_ma price (Some sentiment_str);
        match notional with
        | None => Ok (st, Skipped NotionalNone)
        | Some notional =>
            if notional <? MIN_NOTIONAL
            then Ok (st, Skipped BelowMinNotional)
            else
              let notional_rounded := round notional 2 in
              let order_req := mkRequest symbol notional_rounded in
              (* Submit the order to Alpaca *)
              match submit_order (broker st) order_req with
              | (w, Ok order) =>
                  Ok ({| seen_symbols := {[symbol]} ∪ seen_symbols st;
                         orders_submitted := S (orders_submitted st);
                         broker := w |},
                      OrderSubmitted order_req order)
              | (w, Raise e) =>
                  Ok ({| seen_symbols := seen_symbols st;
                         orders_submitted := orders_submitted st;
                         broker := w |},
                      OrderFailed order_req e)
              end
        end
    | _, _, _ => Ok (st, Skipped MissingNumeric)
    end.

(** The loop over the data rows, with one event per row in order. *)
Fixpoint process_rows (buying_power : float) (st : RunState)
    (rows : list (list str)) : Result (RunState * list Event) :=
  match rows with
  | [] => Ok (st, [])
  | row :: rows' =>
      r ← process_row buying_power st row;
      rs ← process_rows buying_power r.1 rows';
      Ok (rs.1, r.2 :: rs.2)
  end.

(** [run_bot] from the point where the buying power and the sheet's
    rows (header first) have been fetched. *)
Definition run_bot (buying_power : float) (rows : list (list str))
    (w : World) : Result (RunState * list Event) :=
  match rows with
  | [] | [_] => Ok (initial w, [])
  | _header :: data => process_rows buying_power (initial w) data
  end.

(** The normalized symbol of a row. *)
Definition row_symbol (row : list str) : str :=
  upper (strip (cell row COL_TICKER)).

(** The validation steps of the loop body that do not look at the run's
    state, in the order of the loop: the request the row asks for, or the
    reason it is skipped. *)
Definition row_decision (buying_power : float) (row : list str)
  : Result (Skip + MarketOrderRequest) :=
  if bool_decide (row_symbol row = []) then Ok (inl NoSymbol)
  else
    price ← safe_float (Some (cell row COL_PRICE));
    pct_down ← safe_float (Some (cell row COL_PCT_DOWN));
    long_ma ← safe_float (Some (cell row COL_LONG_MA));
    match price, pct_down, long_ma with
    | Some price, Some pct_down, Some long_ma =>
        notional ← compute_order_notional buying_power pct_down
                     (Some (cell row COL_ICON)) long_ma price
                     (Some (cell row COL_SENTIMENT));
        match notional with
        | None => Ok (inl NotionalNone)
        | Some notional =>
            if notional <? MIN_NOTIONAL then Ok (inl BelowMinNotional)
            else Ok (inr (mkRequest (row_symbol row) (round notional 2)))
        end
    | _, _, _ => Ok (inl MissingNumeric)
    end.

(** The requests handed to the brokerage, in order. *)
Definition request_of (ev : Event) : option MarketOrderRequest :=
  match ev with
  | Skipped _ => None
  | OrderSubmitted req _ | OrderFailed req _ => Some req
  end.

Definition requests (evs : list Event) : list MarketOrderRequest :=
  omap request_of evs.

Definition requests_for (s : str) (evs : list Event)
  : list MarketOrderRequest :=
  filter (fun req => symbol req = s) (requests evs).

End RunBot.

Arguments Skipped {Order} why.
Arguments OrderSubmitted {Order} req order.
Arguments OrderFailed {Order} req e.
Arguments seen_symbols {World} _.
Arguments orders_submitted {World} _.
Arguments broker {World} _.
Arguments initial {World} w.
Arguments request_of {Order} ev.
Arguments requests {Order} evs.
Arguments requests_for {Order} s evs.

End Main.

(** ** Sheets and brokerages to run the loop on *)

Module Scenario.
Import Main.

(** The icon with multiplier 1.0. *)
Definition gem : str := [0x1f48e%N].

(** A sheet row with the six cells the bot reads, columns A, B, C, J, P
    and Q, and blanks between them. *)
Definition sheet_row (ticker price pct_down long_ma icon sentiment : str)
  : list str :=
  [ticker; price; pct_down] ++ replicate 6 [] ++ [long_ma]
    ++ replicate 5 [] ++ [icon; sentiment].

Definition header : list str := [lit "Ticker"; lit "Price"; lit "% Down"].

(** Brokerages that count the calls made to them: one fills every order,
    one rejects every order, one rejects its first call only. *)
Definition filling (calls : nat) (req : MarketOrderRequest)
  : nat * Result nat :=
  (S calls, Ok calls).

Definition rejecting (calls : nat) (req : MarketOrderRequest)
  : nat * Result nat :=
  (S calls, Raise (BrokerError 403)).

Definition flaky (calls : nat) (req : MarketOrderRequest)
  : nat * Result nat :=
  match calls with
  | O => (S calls, Raise (BrokerError 403))
  | _ => (S calls, Ok calls)
  end.

Definition aapl : list str :=
  sheet_row (lit "AAPL") (lit "100") (lit "10%") (lit "110") gem (lit "2").

Definition aapl_again : list str :=
  sheet_row (lit " aapl ") (lit "100") (lit "10%") (lit "110") gem (lit "2").

Definition aapl_unpriced : list str :=
  sheet_row (lit "AAPL") (lit "n/a") (lit "10%") (lit "110") gem (lit "2").

Definition msft : list str :=
  sheet_row (lit "msft") (lit "200") (lit "60") (lit "50")
    [0x2728%N] (lit "").

(** A row whose notional is the buying power times 0.05. *)
Definition unit_row : list str :=
  sheet_row (lit "SPY") (lit "100") (lit "10") (lit "100") gem (lit "1").

End Scenario.

(** ** [main.py]: configuration read from the environment *)

Module Startup.

(** The process environment, [os.environ]. *)
Definition environ : Type := gmap str str.

(** A value, or the [RuntimeError] that names the variable that is required
    but not set. *)
Inductive EnvResult (A : Type) : Type :=
  | Found (a : A)
  | RuntimeError (name : str).
Arguments Found {A} a.
Arguments RuntimeError {A} name.

(** [get_env_var(name)]: [os.getenv(name)], refused when it is [None] or
    empty. *)
Definition get_env_var (env : environ) (name : str) : EnvResult str :=
  match env !! name with
  | Some val => if bool_decide (val = []) then RuntimeError name else Found val
  | None => RuntimeError name
  end.

(** The arguments [get_alpaca_client] builds its [TradingClient] with. *)
Record TradingClientArgs : Type := mkClientArgs {
  api_key : str;
  secret_key : str;
  paper : bool;
  url_override : option str
}.

(** [get_alpaca_client] up to the construction of the client: the two
    required variables in the order they are read, then the optional base
    URL, which counts only when it is not empty. *)
Definition trading_client_args (env : environ) : EnvResult TradingClientArgs :=
  match get_env_var env (lit "ALPACA_API_KEY") with
  | RuntimeError name => RuntimeError name
  | Found api_key =>
      match get_env_var env (lit "ALPACA_API_SECRET") with
      | RuntimeError name => RuntimeError name
      | Found api_secret =>
          let base_url := env !! lit "ALPACA_BASE_URL" in
          Found {| api_key := api_key;
                   secret_key := api_secret;
                   paper := false;
                   url_override :=
                     match base_url with
                     | Some url => if bool_decide (url = []) then None
                                   else Some url
                     | None => None
                     end |}
      end
  end.

End Startup.

(** ** Reading a run's trace *)

Module Trace.
Import Main.

Section Trace.
Variables World Order : Type.
Variable submit_order : World -> MarketOrderRequest -> World * Result Order.

(** The requests of the orders the brokerage accepted, in order. *)
Definition submitted_of (ev : Event Order) : option MarketOrderRequest :=
  match ev with
  | OrderSubmitted req _ => Some req
  | _ => None
  end.

Definition submitted (evs : list (Event Order)) : list MarketOrderRequest :=
  omap submitted_of evs.

(** The brokerage after it has been sent the requests one after the
    other. *)
Definition replay (w : World) (reqs : list MarketOrderRequest) : World :=
  foldl (fun w req => (submit_order w req).1) w reqs.

(** The events the brokerage's answers to these requests give rise to. *)
Fixpoint answers (w : World) (reqs : list MarketOrderRequest)
  : list (Event Order) :=
  match reqs with
  | [] => []
  | req :: reqs' =>
      match submit_order w req with
      | (w', Ok order) => OrderSubmitted req order :: answers w' reqs'
      | (w', Raise e) => OrderFailed req e :: answers w' reqs'
      end
  end.

(** The events of a trace that are not skips. *)
Definition is_request (ev : Event Order) : bool :=
  match ev with
  | Skipped _ => false
  | _ => true
  end.

End Trace.

Arguments submitted_of {Order} ev.
Arguments submitted {Order} evs.
Arguments replay {World Order} submit_order w reqs.
Arguments answers {World Order} submit_order w reqs.
Arguments is_request {Order} ev.

End Trace.

(** * Properties *)

Import PyFloat Main.

(** ** The float model on known values *)

Example float_of_str_values :
  float_of_str (lit "1e22") = Ok 1e22 /\
  float_of_str (lit " 1_000.5 ") = Ok 1000.5 /\
  float_of_str (lit "+.5e-3") = Ok 0.0005 /\
  float_of_str (lit "-Infinity") = Ok neg_infinity /\
  float_of_str (lit "1e400") = Ok infinity /\
  float_of_str (lit "9007199254740993") = Ok 9007199254740992 /\
  float_of_str [0x661; 0x662; 0x2e; 0x665]%N = Ok 12.5 /\
  float_of_str (lit "0x10") = Raise ValueError /\
  float_of_str (lit "1__0") = Raise ValueError /\
  float_of_str (lit "1e") = Raise ValueError /\
  float_of_str (lit "1 2") = Raise ValueError.
Proof. repeat split; vm_compute; reflexivity. Qed.

Example round_values :
  round 2.675 2 = 2.67 /\
  round 0.125 2 = 0.12 /\
  round 0.375 2 = 0.38 /\
  round 262.5 2 = 262.5 /\
  round 1e300 2 = 1e300 /\
  round infinity 2 = infinity.
Proof. repeat split; vm_compute; reflexivity. Qed.

Example truediv_values :
  truediv 110 100 = Ok 1.1 /\
  truediv 1 0 = Raise ZeroDivisionError /\
  truediv 1 (-0) = Raise ZeroDivisionError /\
  truediv 1 nan = Ok nan.
Proof. repeat split; vm_compute; reflexivity. Qed.

(** ** The order on binary64 *)

Section FloatOrder.

Lemma SFcompare_swap (x y : spec_float) :
  SFcompare y x = option_map CompOpp (SFcompare x y).
Proof.
  destruct x as [sx|sx| |sx mx ex], y as [sy|sy| |sy my ey]; simpl;
    try (destruct sx); try (destruct sy); try reflexivity.
  all: rewrite (Z.compare_antisym ex ey).
  all: change (Pos.compare_cont Eq) with Pos.compare.
  all: rewrite (Pos.compare_antisym mx my).
  all: destruct (ex ?= ey)%Z; simpl; try reflexivity.
  all: destruct (Pos.compare mx my); reflexivity.
Qed.

(** [a < b] excludes [b <= a]. *)
Lemma ltb_leb_false (a b : float) : (a <? b) = true -> (b <=? a) = false.
Proof.
  rewrite FloatAxioms.ltb_spec, FloatAxioms.leb_spec. unfold SFltb, SFleb.
  rewrite (SFcompare_swap (Prim2SF a) (Prim2SF b)).
  destruct (SFcompare (Prim2SF a) (Prim2SF b)) as [[]|]; simpl; congruence.
Qed.

(** [a <= b] excludes [b < a]. *)
Lemma leb_ltb_false (a b : float) : (a <=? b) = true -> (b <? a) = false.
Proof.
  rewrite FloatAxioms.ltb_spec, FloatAxioms.leb_spec. unfold SFltb, SFleb.
  rewrite (SFcompare_swap (Prim2SF a) (Prim2SF b)).
  destruct (SFcompare (Prim2SF a) (Prim2SF b)) as [[]|]; simpl; congruence.
Qed.

Lemma ltb_leb (a b : float) : (a <? b) = true -> (a <=? b) = true.
Proof.
  rewrite FloatAxioms.ltb_spec, FloatAxioms.leb_spec. unfold SFltb, SFleb.
  destruct (SFcompare (Prim2SF a) (Prim2SF b)) as [[]|]; congruence.
Qed.

Lemma eqb_leb (a b : float) : (a =? b) = true -> (a <=? b) = true.
Proof.
  rewrite FloatAxioms.eqb_spec, FloatAxioms.leb_spec. unfold SFeqb, SFleb.
  destruct (SFcompare (Prim2SF a) (Prim2SF b)) as [[]|]; congruence.
Qed.

Lemma SFcompare_Lt_trans (x y z : spec_float) :
  SFcompare x y = Some Lt -> SFcompare y z = Some Lt ->
  SFcompare x z = Some Lt.
Proof.
  destruct x as [sx|sx| |sx mx ex], y as [sy|sy| |sy my ey],
           z as [sz|sz| |sz mz ez]; simpl;
    try (destruct sx); try (destruct sy); try (destruct sz);
    try congruence.
  all: change (Pos.compare_cont Eq) with Pos.compare.
  all: destruct (Z.compare_spec ex ey), (Z.compare_spec ey ez),
         (Z.compare_spec ex ez); try congruence; try lia.
  all: destruct (Pos.compare_spec mx my), (Pos.compare_spec my mz),
         (Pos.compare_spec mx mz); simpl; try congruence; try lia.
Qed.

Lemma ltb_trans (a b c : float) :
  (a <? b) = true -> (b <? c) = true -> (a <? c) = true.
Proof.
  rewrite !FloatAxioms.ltb_spec. unfold SFltb.
  destruct (SFcompare (Prim2SF a) (Prim2SF b)) as [[]|] eqn:Hab;
    try discriminate.
  destruct (SFcompare (Prim2SF b) (Prim2SF c)) as [[]|] eqn:Hbc;
    try discriminate.
  now rewrite (SFcompare_Lt_trans _ _ _ Hab Hbc).
Qed.

End FloatOrder.

(** ** The allocation brackets *)

Section Brackets.

Lemma above_not_negative (c x : float) :
  (0 <? c) = true -> (c <? x) = true -> (x <? 0) = false.
Proof.
  intros Hc Hx. apply leb_ltb_false, ltb_leb. exact (ltb_trans _ _ _ Hc Hx).
Qed.

Lemma above_not_below (c d x : float) :
  (c <? d) = true -> (d <? x) = true -> (x <=? c) = false.
Proof.
  intros Hc Hx. apply ltb_leb_false. exact (ltb_trans _ _ _ Hc Hx).
Qed.

End Brackets.

(** C1: [get_bracket_pct] returns [None] for every percent down below 0,
    0.05 on [0, 25], 0.10 on (25, 50], 0.15 on (50, 75] and 0.20 above 75;
    the boundary values 25, 50 and 75 fall in the lower bracket. *)
Theorem get_bracket_pct_brackets (percent_down : float) :
  ((percent_down <? 0) = true -> get_bracket_pct percent_down = None) /\
  ((0 <=? percent_down) = true -> (percent_down <=? 25) = true ->
     get_bracket_pct percent_down = Some 0.05) /\
  ((25 <? percent_down) = true -> (percent_down <=? 50) = true ->
     get_bracket_pct percent_down = Some 0.10) /\
  ((50 <? percent_down) = true -> (percent_down <=? 75) = true ->
     get_bracket_pct percent_down = Some 0.15) /\
  ((75 <? percent_down) = true -> get_bracket_pct percent_down = Some 0.20) /\
  get_bracket_pct 25 = Some 0.05 /\
  get_bracket_pct 50 = Some 0.10 /\
  get_bracket_pct 75 = Some 0.15.
Proof.
  unfold get_bracket_pct. repeat split.
  - intros ->. reflexivity.
  - intros H0 H25. rewrite (leb_ltb_false _ _ H0), H0, H25. reflexivity.
  - intros H25 H50.
    rewrite (above_not_negative 25 _ eq_refl H25), (ltb_leb_false _ _ H25),
      H25, H50, andb_false_r.
    reflexivity.
  - intros H50 H75.
    rewrite (above_not_negative 50 _ eq_refl H50), (ltb_leb_false _ _ H50),
      (above_not_below 25 50 _ eq_refl H50), H50, H75, !andb_false_r.
    reflexivity.
  - intros H75.
    rewrite (above_not_negative 75 _ eq_refl H75), (ltb_leb_false _ _ H75),
      (above_not_below 25 75 _ eq_refl H75),
      (above_not_below 50 75 _ eq_refl H75), !andb_false_r.
    reflexivity.
Qed.

Lemma get_bracket_pct_brackets_witness :
  get_bracket_pct (-1) = None /\
  get_bracket_pct 12.5 = Some 0.05 /\
  get_bracket_pct 25.000000000000004 = Some 0.10 /\
  get_bracket_pct 75 = Some 0.15 /\
  get_bracket_pct infinity = Some 0.20.
Proof.
  split; [| split; [| split; [| split]]].
  - apply (proj1 (get_bracket_pct_brackets (-1))). reflexivity.
  - apply (proj1 (proj2 (get_bracket_pct_brackets 12.5))); reflexivity.
  - apply (proj1 (proj2 (proj2
             (get_bracket_pct_brackets 25.000000000000004)))); reflexivity.
  - apply (proj1 (proj2 (proj2 (proj2 (get_bracket_pct_brackets 75)))));
      reflexivity.
  - apply (proj1 (proj2 (proj2 (proj2 (proj2
             (get_bracket_pct_brackets infinity)))))).
    reflexivity.
Defined.

(** ** The numeric parser *)

Section SafeFloat.

(** [float] raises nothing but [ValueError]. *)
Lemma float_of_str_cases (s : str) :
  (exists x, float_of_str s = Ok x) \/ float_of_str s = Raise ValueError.
Proof. unfold float_of_str. destruct (parse s); eauto. Qed.

Lemma safe_float_unfold (s : str) :
  safe_float (Some s) =
    if bool_decide (strip s = []) then Ok None
    else match float_of_str (remove_char 37%N (strip s)) with
         | Ok x => Ok (Some x)
         | Raise _ => Ok None
         end.
Proof.
  unfold safe_float. case_bool_decide; [reflexivity|].
  destruct (float_of_str_cases (remove_char 37%N (strip s))) as [[x ->] | ->];
    reflexivity.
Qed.

Lemma safe_float_total (value : option str) :
  exists r, safe_float value = Ok r.
Proof.
  destruct value as [s|]; [|by eexists].
  rewrite safe_float_unfold. case_bool_decide; [by eexists|].
  destruct (float_of_str _); by eexists.
Qed.

Lemma safe_float_blank (s : str) :
  strip s = [] -> safe_float (Some s) = Ok None.
Proof. intros H. rewrite safe_float_unfold, H. reflexivity. Qed.

Lemma safe_float_not_blank (s : str) (x : float) :
  safe_float (Some s) = Ok (Some x) -> strip s ≠ [].
Proof. intros H E. rewrite (safe_float_blank s E) in H. discriminate. Qed.

End SafeFloat.



(** ** The notional calculator *)

Section Notional.

Lemma sentiment_mult_total (sentiment_raw : option str) :
  exists m, sentiment_mult sentiment_raw = Ok m.
Proof.
  unfold sentiment_mult. destruct sentiment_raw as [raw|]; [|by eexists].
  case_bool_decide; [|by eexists].
  destruct (safe_float_total (Some raw)) as [[v|] ->]; simpl;
    [destruct (0 <? v)|]; by eexists.
Qed.

Lemma not_leb_zero_nonzero (price : float) :
  (price <=? 0) = false -> (price =? 0) = false.
Proof.
  intros H. destruct (price =? 0) eqn:E; [|reflexivity].
  apply eqb_leb in E. congruence.
Qed.

Lemma lookup_icon_None (icon : str) :
  icon ∉ [[0x1f48e]; [0x1f4a5]; [0x1f680]; [0x2728]; [0x1f4ca]]%N ->
  ICON_MULTIPLIERS !! icon = None.
Proof.
  intros H. unfold ICON_MULTIPLIERS.
  rewrite !lookup_insert_ne, lookup_singleton_ne; [reflexivity|..];
    intros E; apply H; subst icon; set_solver.
Qed.

(** The calculator never raises: the guard on the price keeps the divisor
    away from zero. *)
Lemma compute_order_notional_Ok bp pd icon lma price sraw :
  exists r, compute_order_notional bp pd icon lma price sraw = Ok r.
Proof.
  unfold compute_order_notional, compute_order_notional_with, truediv.
  destruct (get_bracket_pct pd); [|by eexists].
  destruct (ICON_MULTIPLIERS !! _); [|by eexists].
  destruct (price <=? 0) eqn:Hprice; [by eexists|].
  rewrite (not_leb_zero_nonzero _ Hprice).
  destruct (sentiment_mult_total sraw) as [sm ->]. by eexists.
Qed.

(** Past the three checks the notional is the product, with the value of
    [sentiment_mult] as its last factor. *)
Lemma compute_order_notional_passed bp pd icon lma price sraw b m sm :
  get_bracket_pct pd = Some b ->
  ICON_MULTIPLIERS !! strip (default [] icon) = Some m ->
  (price <=? 0) = false ->
  sentiment_mult sraw = Ok sm ->
  compute_order_notional bp pd icon lma price sraw
  = Ok (Some (bp * b * m * (lma / price) * sm)).
Proof.
  intros Hb Hm Hprice Hsm.
  unfold compute_order_notional, compute_order_notional_with, truediv.
  rewrite Hb, Hm, Hprice, (not_leb_zero_nonzero _ Hprice), Hsm.
  reflexivity.
Qed.

End Notional.

(** C3: when the bracket resolves, the trimmed icon is in the table and the
    price is not [<= 0], [compute_order_notional] returns
    [buying_power * bracket * icon multiplier * (long_ma / price) *
    sentiment multiplier]; with buying power 100000, 10 percent down, the
    1.0 icon, long moving average 110, price 100 and sentiment "2" the
    result is 11000. *)
Theorem compute_order_notional_formula :
  (forall buying_power percent_down icon long_ma price sentiment_raw
          bracket_pct icon_mult,
     get_bracket_pct percent_down = Some bracket_pct ->
     ICON_MULTIPLIERS !! strip (default [] icon) = Some icon_mult ->
     (price <=? 0) = false ->
     exists s_mult,
       sentiment_mult sentiment_raw = Ok s_mult /\
       compute_order_notional buying_power percent_down icon long_ma price
         sentiment_raw
       = Ok (Some (buying_power * bracket_pct * icon_mult
                   * (long_ma / price) * s_mult))) /\
  get_bracket_pct 10 = Some 0.05 /\
  ICON_MULTIPLIERS !! [0x1f48e%N] = Some 1.0 /\
  sentiment_mult (Some (lit "2")) = Ok 2 /\
  compute_order_notional 100000 10 (Some [0x1f48e%N]) 110 100
    (Some (lit "2")) = Ok (Some 11000).
Proof.
  split; [|repeat split; vm_compute; reflexivity].
  intros bp pd icon lma price sraw br im Hbr Hicon Hprice.
  destruct (sentiment_mult_total sraw) as [sm Hsm].
  exists sm. split; [assumption|].
  unfold compute_order_notional, compute_order_notional_with, truediv.
  rewrite Hbr, Hicon, Hprice, (not_leb_zero_nonzero _ Hprice), Hsm.
  reflexivity.
Qed.

Lemma compute_order_notional_formula_witness :
  exists s_mult,
    sentiment_mult None = Ok s_mult /\
    compute_order_notional 100000 60 (Some (32 :: 0x2728 :: 32 :: nil)%N)
      50 200 None
    = Ok (Some (100000 * 0.15 * 0.7 * (50 / 200) * s_mult)).
Proof.
  apply (proj1 compute_order_notional_formula); vm_compute; reflexivity.
Defined.

(** C4: for fixed other inputs, [compute_order_notional] gives the same
    result for sentiment [None], "-3" and "0.1"; the multiplier is 0.1 when
    the entry is absent, blank, unparseable or parses to a value [<= 0];
    a value that parses positive is used as it is, without a cap.  The
    multiplier is the last factor of the notional [compute_order_notional]
    returns: 0.1 in the first cases, the parsed value itself in the
    last. *)
Theorem sentiment_default :
  (forall buying_power percent_down icon long_ma price,
     compute_order_notional buying_power percent_down icon long_ma price None
     = compute_order_notional buying_power percent_down icon long_ma price
         (Some (lit "0.1")) /\
     compute_order_notional buying_power percent_down icon long_ma price
       (Some (lit "-3"))
     = compute_order_notional buying_power percent_down icon long_ma price
         (Some (lit "0.1"))) /\
  sentiment_mult None = Ok 0.1 /\
  (forall raw, strip raw = [] -> sentiment_mult (Some raw) = Ok 0.1) /\
  (forall raw, safe_float (Some raw) = Ok None ->
     sentiment_mult (Some raw) = Ok 0.1) /\
  (forall raw v, safe_float (Some raw) = Ok (Some v) -> (v <=? 0) = true ->
     sentiment_mult (Some raw) = Ok 0.1) /\
  (forall raw v, safe_float (Some raw) = Ok (Some v) -> (0 <? v) = true ->
     sentiment_mult (Some raw) = Ok v) /\
  (forall buying_power percent_down icon long_ma price sentiment_raw
          bracket_pct icon_mult s_mult,
     get_bracket_pct percent_down = Some bracket_pct ->
     ICON_MULTIPLIERS !! strip (default [] icon) = Some icon_mult ->
     (price <=? 0) = false ->
     sentiment_mult sentiment_raw = Ok s_mult ->
     compute_order_notional buying_power percent_down icon long_ma price
       sentiment_raw
     = Ok (Some (buying_power * bracket_pct * icon_mult
                 * (long_ma / price) * s_mult))) /\
  (forall buying_power percent_down icon long_ma price raw v
          bracket_pct icon_mult,
     get_bracket_pct percent_down = Some bracket_pct ->
     ICON_MULTIPLIERS !! strip (default [] icon) = Some icon_mult ->
     (price <=? 0) = false ->
     safe_float (Some raw) = Ok (Some v) ->
     (0 <? v) = true ->
     compute_order_notional buying_power percent_down icon long_ma price
       (Some raw)
     = Ok (Some (buying_power * bracket_pct * icon_mult
                 * (long_ma / price) * v))) /\
  (forall buying_power percent_down icon long_ma price raw v
          bracket_pct icon_mult,
     get_bracket_pct percent_down = Some bracket_pct ->
     ICON_MULTIPLIERS !! strip (default [] icon) = Some icon_mult ->
     (price <=? 0) = false ->
     safe_float (Some raw) = Ok (Some v) ->
     (v <=? 0) = true ->
     compute_order_notional buying_power percent_down icon long_ma price
       (Some raw)
     = Ok (Some (buying_power * bracket_pct * icon_mult
                 * (long_ma / price) * 0.1))).
Proof.
  assert (Hnone : sentiment_mult None = Ok 0.1) by reflexivity.
  assert (Hneg : sentiment_mult (Some (lit "-3")) = Ok 0.1)
    by (vm_compute; reflexivity).
  assert (Htenth : sentiment_mult (Some (lit "0.1")) = Ok 0.1)
    by (vm_compute; reflexivity).
  split.
  { intros bp pd icon lma price.
    unfold compute_order_notional, compute_order_notional_with.
    rewrite Hnone, Hneg, Htenth. split; reflexivity. }
  split; [exact Hnone|].
  split.
  { intros raw Hraw. unfold sentiment_mult.
    rewrite bool_decide_eq_false_2; [reflexivity | by intros []]. }
  split.
  { intros raw Hraw. unfold sentiment_mult. rewrite Hraw.
    by case_bool_decide. }
  split.
  { intros raw v Hraw Hv. unfold sentiment_mult. rewrite Hraw.
    simpl. rewrite (leb_ltb_false _ _ Hv). by case_bool_decide. }
  assert (Hpos : forall raw v, safe_float (Some raw) = Ok (Some v) ->
            (0 <? v) = true -> sentiment_mult (Some raw) = Ok v).
  { intros raw v Hraw Hv. unfold sentiment_mult.
    rewrite bool_decide_eq_true_2 by exact (safe_float_not_blank _ _ Hraw).
    rewrite Hraw. simpl. rewrite Hv. reflexivity. }
  assert (Hnonpos : forall raw v, safe_float (Some raw) = Ok (Some v) ->
            (v <=? 0) = true -> sentiment_mult (Some raw) = Ok 0.1).
  { intros raw v Hraw Hv. unfold sentiment_mult. rewrite Hraw.
    simpl. rewrite (leb_ltb_false _ _ Hv). by case_bool_decide. }
  split; [exact Hpos|]. split; [|split].
  - intros bp pd icon lma price sraw b m sm. apply compute_order_notional_passed.
  - intros bp pd icon lma price raw v b m Hb Hm Hprice Hraw Hv.
    apply compute_order_notional_passed; auto.
  - intros bp pd icon lma price raw v b m Hb Hm Hprice Hraw Hv.
    apply compute_order_notional_passed; eauto.
Qed.

Lemma sentiment_default_witness :
  sentiment_mult (Some (lit "  ")) = Ok 0.1 /\
  sentiment_mult (Some (lit "n/a")) = Ok 0.1 /\
  sentiment_mult (Some (lit "-0.0")) = Ok 0.1 /\
  sentiment_mult (Some (lit "1e300")) = Ok 1e300 /\
  compute_order_notional 100000 10 (Some [0x1f48e%N]) 110 100 None
  = Ok (Some (100000 * 0.05 * 1.0 * (110 / 100) * 0.1)) /\
  compute_order_notional 100000 10 (Some [0x1f48e%N]) 110 100
    (Some (lit "1e300"))
  = Ok (Some (100000 * 0.05 * 1.0 * (110 / 100) * 1e300)) /\
  compute_order_notional 100000 10 (Some [0x1f48e%N]) 110 100
    (Some (lit "-3"))
  = Ok (Some (100000 * 0.05 * 1.0 * (110 / 100) * 0.1)).
Proof.
  destruct sentiment_default
    as (_ & _ & Hblank & Hbad & Hneg & Hpos & Huse & Hlarge & Hsmall).
  repeat apply conj.
  - apply Hblank. vm_compute. reflexivity.
  - apply Hbad. vm_compute. reflexivity.
  - apply (Hneg _ (-0)); vm_compute; reflexivity.
  - apply Hpos; vm_compute; reflexivity.
  - apply Huse; vm_compute; reflexivity.
  - apply Hlarge; vm_compute; reflexivity.
  - apply (Hsmall _ _ _ _ _ _ (-3)); vm_compute; reflexivity.
Defined.

(** C6: whatever the other inputs, if the trimmed icon is not one of the
    five keys of [ICON_MULTIPLIERS] (an absent or blank icon included),
    [compute_order_notional] returns [None]. *)
Theorem unknown_icon_skipped :
  (forall key, ICON_MULTIPLIERS !! key = None <->
     key ∉ [[0x1f48e]; [0x1f4a5]; [0x1f680]; [0x2728]; [0x1f4ca]]%N) /\
  (forall buying_power percent_down icon long_ma price sentiment_raw,
     ICON_MULTIPLIERS !! strip (default [] icon) = None ->
     compute_order_notional buying_power percent_down icon long_ma price
       sentiment_raw = Ok None) /\
  (forall buying_power percent_down long_ma price sentiment_raw,
     compute_order_notional buying_power percent_down None long_ma price
       sentiment_raw = Ok None) /\
  (forall buying_power percent_down icon long_ma price sentiment_raw,
     strip icon = [] ->
     compute_order_notional buying_power percent_down (Some icon) long_ma
       price sentiment_raw = Ok None).
Proof.
  assert (Hskip : forall bp pd icon lma price sraw,
    ICON_MULTIPLIERS !! strip (default [] icon) = None ->
    compute_order_notional bp pd icon lma price sraw = Ok None).
  { intros bp pd icon lma price sraw H.
    unfold compute_order_notional, compute_order_notional_with.
    rewrite H. by destruct (get_bracket_pct pd). }
  split.
  { intros key. split; [|apply lookup_icon_None].
    intros H Hin. revert H. rewrite !elem_of_cons, elem_of_nil in Hin.
    destruct Hin as [-> | [-> | [-> | [-> | [-> | []]]]]];
      vm_compute; discriminate. }
  split; [exact Hskip|].
  split.
  - intros. by apply Hskip.
  - intros bp pd icon lma price sraw H. apply Hskip. simpl. by rewrite H.
Qed.

Lemma unknown_icon_skipped_witness :
  compute_order_notional 100000 10 (Some (lit " buy ")) 110 100
    (Some (lit "2")) = Ok None /\
  compute_order_notional 100000 10 (Some (lit "  ")) 110 100
    (Some (lit "2")) = Ok None.
Proof.
  destruct unknown_icon_skipped as (_ & Hunknown & _ & Hblank).
  split.
  - apply Hunknown. vm_compute. reflexivity.
  - apply Hblank. vm_compute. reflexivity.
Defined.

(** C8 as stated fails at a price that is not a number.  Such a price
    passes the guard [price <= 0]: the division is carried out although
    [price > 0] does not hold.  With a division that raises on every call
    the function raises at such a price, and the real one returns a notional
    that is not a number. *)
Lemma division_reached_at_nan_price :
  (0 <? nan) = false /\
  compute_order_notional_with (fun _ _ => Raise ZeroDivisionError)
    100000 10 (Some [0x1f48e%N]) 110 nan None = Raise ZeroDivisionError /\
  safe_float (Some (lit "nan")) = Ok (Some nan) /\
  compute_order_notional 100000 10 (Some [0x1f48e%N]) 110 nan None
  = Ok (Some nan).
Proof. repeat split; vm_compute; reflexivity. Qed.

(** C8, amended: [compute_order_notional] is total, it returns a number or
    [None] and never raises.  Every price [<= 0] returns [None] before the
    division, whatever the division would do; the division is reached only
    when [price <= 0] is false (a positive price, or one that is not a
    number), so its divisor is never zero. *)
Theorem compute_order_notional_total :
  (forall buying_power percent_down icon long_ma price sentiment_raw,
     exists r,
       compute_order_notional buying_power percent_down icon long_ma price
         sentiment_raw = Ok r) /\
  (forall divide buying_power percent_down icon long_ma price sentiment_raw,
     (price <=? 0) = true ->
     compute_order_notional_with divide buying_power percent_down icon
       long_ma price sentiment_raw = Ok None) /\
  (forall divide buying_power percent_down icon long_ma price sentiment_raw e,
     compute_order_notional_with divide buying_power percent_down icon
       long_ma price sentiment_raw = Raise e ->
     divide long_ma price = Raise e /\
     (price <=? 0) = false /\ (price =? 0) = false).
Proof.
  split; [exact compute_order_notional_Ok|split].
  - intros divide bp pd icon lma price sraw Hprice.
    unfold compute_order_notional_with. rewrite Hprice.
    destruct (get_bracket_pct pd); [|reflexivity].
    by destruct (ICON_MULTIPLIERS !! _).
  - intros divide bp pd icon lma price sraw e.
    unfold compute_order_notional_with.
    destruct (get_bracket_pct pd); [|discriminate].
    destruct (ICON_MULTIPLIERS !! _); [|discriminate].
    destruct (price <=? 0) eqn:Hprice; [discriminate|].
    destruct (divide lma price) as [q|e'] eqn:Hdiv; simpl.
    + destruct (sentiment_mult_total sraw) as [sm ->]. discriminate.
    + intros [= ->]. auto using not_leb_zero_nonzero.
Qed.

Lemma compute_order_notional_total_witness :
  compute_order_notional_with (fun _ _ => Raise ZeroDivisionError)
    100000 10 (Some [0x1f48e%N]) 110 (-0) None = Ok None /\
  ((nan <=? 0) = false /\ (nan =? 0) = false).
Proof.
  destruct compute_order_notional_total as (_ & Hguard & Hreach).
  split.
  - apply Hguard. vm_compute. reflexivity.
  - apply (Hreach (fun _ _ => Raise ZeroDivisionError)
             100000 10 (Some [0x1f48e%N]) 110 nan None ZeroDivisionError).
    vm_compute. reflexivity.
Defined.

(** ** The row loop *)

Section Pipeline.

Variable upper : str -> str.
Variables World Order : Type.
Variable submit_order : World -> MarketOrderRequest -> World * Result Order.

#[local] Abbreviation process_row := (process_row upper World Order submit_order).
#[local] Abbreviation process_rows :=
  (process_rows upper World Order submit_order).
#[local] Abbreviation run_bot := (run_bot upper World Order submit_order).
#[local] Abbreviation row_symbol := (row_symbol upper).
#[local] Abbreviation row_decision := (row_decision upper).
#[local] Abbreviation RunState := (RunState World).
#[local] Abbreviation Event := (Event Order).

#[local] Arguments compute_order_notional : simpl never.
#[local] Arguments safe_float : simpl never.
#[local] Arguments cell : simpl never.
#[local] Arguments round : simpl never.

(** The validation of a row never raises. *)
Lemma row_decision_total bp row : exists d, row_decision bp row = Ok d.
Proof.
  unfold Main.row_decision. case_bool_decide; [by eexists|].
  destruct (safe_float_total (Some (cell row COL_PRICE))) as [p ->].
  destruct (safe_float_total (Some (cell row COL_PCT_DOWN))) as [c ->].
  destruct (safe_float_total (Some (cell row COL_LONG_MA))) as [m ->].
  simpl. destruct p as [p|], c as [c|], m as [m|]; try by eexists.
  destruct (compute_order_notional_Ok bp c (Some (cell row COL_ICON)) m p
              (Some (cell row COL_SENTIMENT))) as [[n|] ->]; simpl;
    [destruct (n <? MIN_NOTIONAL)|]; by eexists.
Qed.

Lemma row_decision_symbol bp row req :
  row_decision bp row = Ok (inr req) ->
  symbol req = row_symbol row /\ row_symbol row ≠ [].
Proof.
  unfold Main.row_decision. case_bool_decide; [discriminate|].
  destruct (safe_float (Some (cell row COL_PRICE))) as [[p|]|]; simpl;
    try discriminate;
  destruct (safe_float (Some (cell row COL_PCT_DOWN))) as [[c|]|]; simpl;
    try discriminate;
  destruct (safe_float (Some (cell row COL_LONG_MA))) as [[m|]|]; simpl;
    try discriminate.
  destruct (compute_order_notional bp c _ m p _) as [[n|]|]; simpl;
    try discriminate.
  destruct (n <? MIN_NOTIONAL); [discriminate|].
  intros [= <-]. auto.
Qed.

(** The loop body in terms of the row's validation. *)
Lemma process_row_unfold bp (st : RunState) row :
  process_row bp st row =
    if bool_decide (row_symbol row = []) then Ok (st, Skipped NoSymbol)
    else if bool_decide (row_symbol row ∈ seen_symbols st)
    then Ok (st, Skipped DuplicateSymbol)
    else
      d ← row_decision bp row;
      match d with
      | inl why => Ok (st, Skipped why)
      | inr req =>
          match submit_order (broker st) req with
          | (w, Ok order) =>
              Ok ({| seen_symbols := {[symbol req]} ∪ seen_symbols st;
                     orders_submitted := S (orders_submitted st);
                     broker := w |},
                  OrderSubmitted req order)
          | (w, Raise e) =>
              Ok ({| seen_symbols := seen_symbols st;
                     orders_submitted := orders_submitted st;
                     broker := w |},
                  OrderFailed req e)
          end
      end.
Proof.
  unfold Main.process_row, Main.row_decision. fold (row_symbol row).
  case_bool_decide; [reflexivity|]. case_bool_decide; [reflexivity|].
  destruct (safe_float (Some (cell row COL_PRICE))) as [[p|]|]; simpl;
    try reflexivity;
  destruct (safe_float (Some (cell row COL_PCT_DOWN))) as [[c|]|]; simpl;
    try reflexivity;
  destruct (safe_float (Some (cell row COL_LONG_MA))) as [[m|]|]; simpl;
    try reflexivity.
  destruct (compute_order_notional bp c _ m p _) as [[n|]|]; simpl;
    try reflexivity.
  destruct (n <? MIN_NOTIONAL); reflexivity.
Qed.

(** What one iteration can do: skip the row and leave the state alone, or
    hand the row's request to the brokerage exactly once. *)
Lemma process_row_inv bp (st st' : RunState) row (ev : Event) :
  process_row bp st row = Ok (st', ev) ->
  (exists why, ev = Skipped why /\ st' = st) \/
  (exists req order,
     ev = OrderSubmitted req order /\
     row_decision bp row = Ok (inr req) /\
     (symbol req ∉ seen_symbols st) /\
     submit_order (broker st) req = (broker st', Ok order) /\
     seen_symbols st' = {[symbol req]} ∪ seen_symbols st /\
     orders_submitted st' = S (orders_submitted st)) \/
  (exists req e,
     ev = OrderFailed req e /\
     row_decision bp row = Ok (inr req) /\
     (symbol req ∉ seen_symbols st) /\
     submit_order (broker st) req = (broker st', Raise e) /\
     seen_symbols st' = seen_symbols st /\
     orders_submitted st' = orders_submitted st).
Proof.
  rewrite process_row_unfold.
  case_bool_decide as Hsym; [intros [= <- <-]; eauto|].
  case_bool_decide as Hseen; [intros [= <- <-]; eauto|].
  destruct (row_decision bp row) as [[why|req]|e] eqn:Hd; simpl;
    [intros [= <- <-]; eauto | | discriminate].
  destruct (row_decision_symbol _ _ _ Hd) as [Hreq _].
  rewrite <- Hreq in Hseen.
  destruct (submit_order (broker st) req) as [w [order|e]] eqn:Hsub;
    intros [= <- <-]; simpl; [right; left | right; right];
    eexists _, _; eauto 10.
Qed.

Lemma process_row_total bp (st : RunState) row :
  exists st' ev, process_row bp st row = Ok (st', ev).
Proof.
  rewrite process_row_unfold.
  case_bool_decide; [by eexists _, _|].
  case_bool_decide; [by eexists _, _|].
  destruct (row_decision_total bp row) as [[why|req] ->]; simpl;
    [by eexists _, _|].
  destruct (submit_order (broker st) req) as [w [order|e]]; by eexists _, _.
Qed.

Lemma process_rows_cons bp (st st1 st2 : RunState) row rows ev evs :
  process_row bp st row = Ok (st1, ev) ->
  process_rows bp st1 rows = Ok (st2, evs) ->
  process_rows bp st (row :: rows) = Ok (st2, ev :: evs).
Proof. intros H1 H2. simpl. rewrite H1. simpl. rewrite H2. reflexivity. Qed.

Lemma process_rows_cons_inv bp (st st2 : RunState) row rows evs :
  process_rows bp st (row :: rows) = Ok (st2, evs) ->
  exists st1 ev evs',
    evs = ev :: evs' /\
    process_row bp st row = Ok (st1, ev) /\
    process_rows bp st1 rows = Ok (st2, evs').
Proof.
  simpl. destruct (process_row bp st row) as [[st1 ev]|] eqn:H1;
    [|discriminate].
  simpl. destruct (process_rows bp st1 rows) as [[st2' evs']|] eqn:H2;
    [|discriminate].
  intros [= <- <-]. by eexists _, _, _.
Qed.

(** The loop never raises and yields one event per row. *)
Lemma process_rows_total bp rows :
  forall st : RunState,
  exists st' evs,
    process_rows bp st rows = Ok (st', evs) /\ length evs = length rows.
Proof.
  induction rows as [|row rows IH]; intros st; [by eexists _, _|].
  destruct (process_row_total bp st row) as (st1 & ev & H1).
  destruct (IH st1) as (st2 & evs & H2 & Hlen).
  exists st2, (ev :: evs). split; [by eapply process_rows_cons|].
  simpl. by rewrite Hlen.
Qed.

Lemma process_rows_app bp pre post :
  forall (st st1 st2 : RunState) evs1 evs2,
  process_rows bp st pre = Ok (st1, evs1) ->
  process_rows bp st1 post = Ok (st2, evs2) ->
  process_rows bp st (pre ++ post) = Ok (st2, evs1 ++ evs2).
Proof.
  induction pre as [|row pre IH]; intros st st1 st2 evs1 evs2 H1 H2.
  - by injection H1 as <- <-.
  - apply process_rows_cons_inv in H1 as (st' & ev & evs' & -> & Hrow & Hpre).
    simpl app. eapply process_rows_cons; eauto.
Qed.

(** With a header row in front, [run_bot] is the loop over the data rows. *)
Lemma run_bot_rows bp header data w :
  run_bot bp (header :: data) w = process_rows bp (initial w) data.
Proof. by destruct data. Qed.

(** C5: the floor is tested on the notional as computed: a row whose
    notional is below 1.0 is skipped and leaves the state alone, a row whose
    notional is 1.0 or more is handed to the brokerage, and the request
    carries the notional rounded to two decimals. *)
Theorem min_notional_floor bp (st : RunState) row price pct_down long_ma n :
  row_symbol row ≠ [] ->
  row_symbol row ∉ seen_symbols st ->
  safe_float (Some (cell row COL_PRICE)) = Ok (Some price) ->
  safe_float (Some (cell row COL_PCT_DOWN)) = Ok (Some pct_down) ->
  safe_float (Some (cell row COL_LONG_MA)) = Ok (Some long_ma) ->
  compute_order_notional bp pct_down (Some (cell row COL_ICON)) long_ma
    price (Some (cell row COL_SENTIMENT)) = Ok (Some n) ->
  ((n <? 1.0) = true ->
     process_row bp st row = Ok (st, Skipped BelowMinNotional)) /\
  ((1.0 <=? n) = true ->
     exists st' ev,
       process_row bp st row = Ok (st', ev) /\
       request_of ev = Some (mkRequest (row_symbol row) (round n 2))).
Proof.
  intros Hsym Hseen Hprice Hpct Hma Hn.
  assert (Hd : forall b, (n <? MIN_NOTIONAL) = b ->
    row_decision bp row =
      if b then Ok (inl BelowMinNotional)
      else Ok (inr (mkRequest (row_symbol row) (round n 2)))).
  { intros b Hb. unfold Main.row_decision.
    rewrite bool_decide_eq_false_2 by assumption.
    rewrite Hprice, Hpct, Hma. simpl. rewrite Hn. simpl. by rewrite Hb. }
  rewrite process_row_unfold.
  rewrite !bool_decide_eq_false_2 by assumption.
  split.
  - intros Hlt. by rewrite (Hd true Hlt).
  - intros Hge. rewrite (Hd false (leb_ltb_false _ _ Hge)). simpl.
    destruct (submit_order (broker st) _) as [w [order|e]];
      by eexists _, _.
Qed.


(** The counter and the set of seen symbols move together. *)
Lemma counter_invariant_step bp (st st' : RunState) row (ev : Event) :
  process_row bp st row = Ok (st', ev) ->
  orders_submitted st = size (seen_symbols st) ->
  orders_submitted st' = size (seen_symbols st').
Proof.
  intros Hrow Hinv. apply process_row_inv in Hrow
    as [(? & _ & ->) | [(req & order & _ & _ & Hnew & _ & -> & ->)
                       | (? & ? & _ & _ & _ & _ & -> & ->)]];
    [assumption | | assumption].
  rewrite size_union by set_solver. rewrite size_singleton, Hinv.
  reflexivity.
Qed.

Lemma counter_invariant_rows bp rows :
  forall (st st' : RunState) evs,
  process_rows bp st rows = Ok (st', evs) ->
  orders_submitted st = size (seen_symbols st) ->
  orders_submitted st' = size (seen_symbols st').
Proof.
  induction rows as [|row rows IH]; intros st st' evs Hrows Hinv.
  - by injection Hrows as <- _.
  - apply process_rows_cons_inv in Hrows as (st1 & ev & evs' & _ & H1 & H2).
    eauto using counter_invariant_step.
Qed.

(** C10: after any number of rows [orders_submitted] is the number of
    symbols in [seen_symbols]; both change together, on a successful
    submission only.  A skipped row leaves the state alone; a failed
    submission leaves both alone, its symbol is not marked as seen, and a
    later row with that symbol is handed to the brokerage again. *)
Theorem orders_submitted_matches_seen bp :
  (forall w rows (st : RunState) evs,
     process_rows bp (initial w) rows = Ok (st, evs) ->
     orders_submitted st = size (seen_symbols st)) /\
  (forall (st st' : RunState) row why,
     process_row bp st row = Ok (st', Skipped why) -> st' = st) /\
  (forall (st st' : RunState) row req order,
     process_row bp st row = Ok (st', OrderSubmitted req order) ->
     (symbol req ∉ seen_symbols st) /\
     seen_symbols st' = {[symbol req]} ∪ seen_symbols st /\
     orders_submitted st' = S (orders_submitted st)) /\
  (forall (st st' : RunState) row req e,
     process_row bp st row = Ok (st', OrderFailed req e) ->
     seen_symbols st' = seen_symbols st /\
     orders_submitted st' = orders_submitted st /\
     (symbol req ∉ seen_symbols st') /\
     forall row2 req2,
       row_decision bp row2 = Ok (inr req2) ->
       symbol req2 = symbol req ->
       exists st'' ev,
         process_row bp st' row2 = Ok (st'', ev) /\
         request_of ev = Some req2).
Proof.
  split; [|split; [|split]].
  - intros w rows st evs Hrows.
    by apply (counter_invariant_rows _ _ _ _ _ Hrows).
  - intros st st' row why Hrow. apply process_row_inv in Hrow
      as [(? & _ & ->) | [(? & ? & [=] & _) | (? & ? & [=] & _)]].
    reflexivity.
  - intros st st' row req order Hrow. apply process_row_inv in Hrow
      as [(? & [=] & _) | [(? & ? & [= <- <-] & H) | (? & ? & [=] & _)]].
    tauto.
  - intros st st' row req e Hrow. apply process_row_inv in Hrow
      as [(? & [=] & _) | [(? & ? & [=] & _)
                          | (? & ? & [= <- <-] & _ & Hnew & _ & Hs & Hc)]].
    rewrite Hs. repeat split; [assumption..|].
    intros row2 req2 Hd Hsame.
    destruct (row_decision_symbol _ _ _ Hd) as [Hsym Hne].
    rewrite process_row_unfold.
    rewrite bool_decide_eq_false_2 by assumption.
    rewrite bool_decide_eq_false_2 by (rewrite Hs; congruence).
    rewrite Hd. simpl.
    destruct (submit_order (broker st') req2) as [w [order|e']];
      by eexists _, _.
Qed.

(** *** Deduplication *)

Lemma requests_for_cons sym (ev : Event) evs :
  requests_for sym (ev :: evs) =
    match request_of ev with
    | Some req =>
        if decide (symbol req = sym) then req :: requests_for sym evs
        else requests_for sym evs
    | None => requests_for sym evs
    end.
Proof.
  unfold requests_for, requests. simpl.
  destruct (request_of ev) as [req|]; [|reflexivity].
  simpl. rewrite filter_cons. reflexivity.
Qed.

Lemma requests_for_app sym (evs1 evs2 : list Event) :
  requests_for sym (evs1 ++ evs2)
  = requests_for sym evs1 ++ requests_for sym evs2.
Proof.
  unfold requests_for, requests. by rewrite omap_app, filter_app.
Qed.

(** Rows that do not qualify leave no trace of their symbol. *)
Lemma no_request_before bp sym pre :
  forall (st st1 : RunState) evs1,
  (forall r req', r ∈ pre -> row_symbol r = sym ->
     row_decision bp r ≠ Ok (inr req')) ->
  sym ∉ seen_symbols st ->
  process_rows bp st pre = Ok (st1, evs1) ->
  (sym ∉ seen_symbols st1) /\ requests_for sym evs1 = [].
Proof.
  induction pre as [|row pre IH]; intros st st1 evs1 Hpre Hseen Hrows.
  - by injection Hrows as <- <-.
  - apply process_rows_cons_inv in Hrows as (st' & ev & evs' & -> & H1 & H2).
    assert (Hother : forall req, row_decision bp row = Ok (inr req) ->
              symbol req ≠ sym).
    { intros req Hd Heq.
      destruct (row_decision_symbol _ _ _ Hd) as [Hsym _].
      apply (Hpre row req); [set_solver | congruence | assumption]. }
    assert (Hpre' : forall r req', r ∈ pre -> row_symbol r = sym ->
              row_decision bp r ≠ Ok (inr req')).
    { intros r req' Hr. apply Hpre. set_solver. }
    rewrite requests_for_cons.
    apply process_row_inv in H1
      as [(why & -> & ->)
         | [(req & order & -> & Hd & _ & _ & Hs & _)
           | (req & e & -> & Hd & _ & _ & Hs & _)]]; simpl.
    + eauto.
    + rewrite decide_False by eauto.
      apply (IH st' st1 evs'); [assumption| |assumption].
      rewrite Hs. specialize (Hother req Hd). set_solver.
    + rewrite decide_False by eauto.
      apply (IH st' st1 evs'); [assumption| |assumption].
      by rewrite Hs.
Qed.

(** Once a symbol is seen, every later row that carries it is skipped as a
    duplicate. *)
Lemma duplicates_skipped bp sym post :
  forall (st st3 : RunState) evs3,
  sym ≠ [] ->
  sym ∈ seen_symbols st ->
  process_rows bp st post = Ok (st3, evs3) ->
  requests_for sym evs3 = [] /\
  forall i r, post !! i = Some r -> row_symbol r = sym ->
    evs3 !! i = Some (Skipped DuplicateSymbol).
Proof.
  induction post as [|row post IH]; intros st st3 evs3 Hne Hseen Hrows.
  - injection Hrows as <- <-. split; [reflexivity|]. intros i r [=].
  - apply process_rows_cons_inv in Hrows as (st' & ev & evs' & -> & H1 & H2).
    assert (Hseen' : sym ∈ seen_symbols st').
    { apply process_row_inv in H1
        as [(? & _ & ->) | [(? & ? & _ & _ & _ & _ & -> & _)
                           | (? & ? & _ & _ & _ & _ & -> & _)]];
        set_solver. }
    destruct (IH st' st3 evs' Hne Hseen' H2) as [Hreq Hdup].
    assert (Hev : request_of ev = None \/
              exists req, request_of ev = Some req /\ symbol req ≠ sym).
    { apply process_row_inv in H1
        as [(? & -> & _) | [(req & ? & -> & _ & Hnew & _)
                           | (req & ? & -> & _ & Hnew & _)]];
        [by left | right; exists req; split; [done | set_solver]..]. }
    split.
    + rewrite requests_for_cons.
      destruct Hev as [-> | (req & -> & Hreq')]; [assumption|].
      by rewrite decide_False.
    + intros [|i] r Hr Hsym; [|by eapply Hdup].
      injection Hr as ->. revert H1. rewrite process_row_unfold.
      rewrite bool_decide_eq_false_2 by congruence.
      rewrite bool_decide_eq_true_2 by congruence.
      by intros [= _ <-].
Qed.

(** C2, amended: take rows sharing a normalized symbol.  If no occurrence
    before [row] passes the validation, [row] does, and its submission
    succeeds, then the run hands exactly one request for that symbol to the
    brokerage, the one of [row], and every later row with the symbol is
    skipped as a duplicate. *)
Theorem first_submitted_occurrence_wins
    bp w header pre row post (st1 : RunState) evs1 req w' order :
  (forall r req', r ∈ pre -> row_symbol r = symbol req ->
     row_decision bp r ≠ Ok (inr req')) ->
  row_decision bp row = Ok (inr req) ->
  process_rows bp (initial w) pre = Ok (st1, evs1) ->
  submit_order (broker st1) req = (w', Ok order) ->
  exists st3 evs3,
    run_bot bp (header :: pre ++ row :: post) w
    = Ok (st3, evs1 ++ OrderSubmitted req order :: evs3) /\
    requests_for (symbol req) (evs1 ++ OrderSubmitted req order :: evs3)
    = [req] /\
    length evs3 = length post /\
    forall i r, post !! i = Some r -> row_symbol r = symbol req ->
      evs3 !! i = Some (Skipped DuplicateSymbol).
Proof.
  intros Hpre Hrow Hrows Hsub.
  destruct (row_decision_symbol _ _ _ Hrow) as [Hsym Hne].
  destruct (no_request_before bp (symbol req) pre _ _ _ Hpre
              (not_elem_of_empty _) Hrows) as [Hfresh Hnone].
  set (st2 := {| seen_symbols := {[symbol req]} ∪ seen_symbols st1;
                 orders_submitted := S (orders_submitted st1);
                 broker := w' |} : RunState).
  assert (H2 : process_row bp st1 row = Ok (st2, OrderSubmitted req order)).
  { rewrite process_row_unfold.
    rewrite bool_decide_eq_false_2 by assumption.
    rewrite bool_decide_eq_false_2 by congruence.
    rewrite Hrow. simpl. by rewrite Hsub. }
  destruct (process_rows_total bp post st2) as (st3 & evs3 & Hpost & Hlen).
  destruct (duplicates_skipped bp (symbol req) post st2 st3 evs3)
    as [Hnone' Hdup]; [congruence | set_solver | assumption |].
  exists st3, evs3. split; [|split; [|split]].
  - rewrite run_bot_rows. eapply process_rows_app; [eassumption|].
    by eapply process_rows_cons.
  - rewrite requests_for_app, requests_for_cons, Hnone, Hnone'. simpl.
    by rewrite decide_True.
  - assumption.
  - assumption.
Qed.

End Pipeline.

(** ** The loop on concrete sheets *)

Import Scenario.

(** C2 as stated fails when a submission fails.  A rejected order does not
    mark its symbol as seen: when the brokerage
    rejects the first AAPL order, the second AAPL row is not skipped but
    submitted, so two requests for the symbol are handed over, and only the
    third row is dropped as a duplicate. *)
Lemma failed_symbol_is_submitted_again :
  snd <$> run_bot ascii_upper nat nat flaky 100000
            [header; aapl; aapl_again; aapl] 0%nat
  = Ok [OrderFailed (mkRequest (lit "AAPL") 11000) (BrokerError 403);
        OrderSubmitted (mkRequest (lit "AAPL") 11000) 1%nat;
        Skipped DuplicateSymbol] /\
  row_symbol ascii_upper aapl = row_symbol ascii_upper aapl_again /\
  length (requests_for (lit "AAPL")
            [OrderFailed (mkRequest (lit "AAPL") 11000) (BrokerError 403);
             OrderSubmitted (Order := nat) (mkRequest (lit "AAPL") 11000) 1%nat;
             Skipped DuplicateSymbol]) = 2%nat.
Proof. repeat split; vm_compute; reflexivity. Qed.

Lemma first_submitted_occurrence_wins_witness :
  exists st3 evs3,
    run_bot ascii_upper nat nat filling 100000
      (header :: [aapl_unpriced] ++ aapl :: [aapl_again; msft]) 0%nat
    = Ok (st3, [Skipped MissingNumeric]
               ++ OrderSubmitted (mkRequest (lit "AAPL") 11000) 0%nat :: evs3)
    /\
    requests_for (symbol (mkRequest (lit "AAPL") 11000))
      ([Skipped MissingNumeric]
       ++ OrderSubmitted (mkRequest (lit "AAPL") 11000) 0%nat :: evs3)
    = [mkRequest (lit "AAPL") 11000] /\
    length evs3 = length [aapl_again; msft] /\
    forall i r, [aapl_again; msft] !! i = Some r ->
      row_symbol ascii_upper r = symbol (mkRequest (lit "AAPL") 11000) ->
      evs3 !! i = Some (Skipped DuplicateSymbol).
Proof.
  apply (first_submitted_occurrence_wins ascii_upper nat nat filling
           100000 0%nat header [aapl_unpriced] aapl [aapl_again; msft]
           (initial 0%nat) [Skipped MissingNumeric]
           (mkRequest (lit "AAPL") 11000) 1%nat 0%nat).
  - intros r req' Hr _. apply list_elem_of_singleton in Hr. subst r.
    vm_compute. discriminate.
  - vm_compute. reflexivity.
  - vm_compute. reflexivity.
  - vm_compute. reflexivity.
Defined.

Lemma min_notional_floor_witness :
  process_row ascii_upper nat nat filling 19.98 (initial 0%nat) unit_row
  = Ok (initial 0%nat, Skipped BelowMinNotional) /\
  round 0.9990000000000001 2 = 1 /\
  exists st' ev,
    process_row ascii_upper nat nat filling 20 (initial 0%nat) unit_row
    = Ok (st', ev) /\
    request_of ev
    = Some (mkRequest (row_symbol ascii_upper unit_row) (round 1 2)).
Proof.
  split; [|split; [vm_compute; reflexivity|]].
  - apply (proj1 (min_notional_floor ascii_upper nat nat filling 19.98
                    (initial 0%nat) unit_row 100 10 100 0.9990000000000001
                    ltac:(vm_compute; discriminate)
                    ltac:(apply not_elem_of_empty)
                    ltac:(vm_compute; reflexivity)
                    ltac:(vm_compute; reflexivity)
                    ltac:(vm_compute; reflexivity)
                    ltac:(vm_compute; reflexivity))).
    vm_compute. reflexivity.
  - apply (proj2 (min_notional_floor ascii_upper nat nat filling 20
                    (initial 0%nat) unit_row 100 10 100 1
                    ltac:(vm_compute; discriminate)
                    ltac:(apply not_elem_of_empty)
                    ltac:(vm_compute; reflexivity)
                    ltac:(vm_compute; reflexivity)
                    ltac:(vm_compute; reflexivity)
                    ltac:(vm_compute; reflexivity))).
    vm_compute. reflexivity.
Defined.


Lemma orders_submitted_matches_seen_witness :
  (exists st evs,
     process_rows ascii_upper nat nat flaky 100000 (initial 0%nat)
       [aapl; aapl_again; aapl; msft] = Ok (st, evs) /\
     orders_submitted st = 2%nat /\
     orders_submitted st = size (seen_symbols st)) /\
  (exists st' ev,
     process_row ascii_upper nat nat flaky 100000
       {| seen_symbols := ∅; orders_submitted := 0; broker := 1%nat |}
       aapl_again = Ok (st', ev) /\
     request_of ev = Some (mkRequest (lit "AAPL") 11000)).
Proof.
  destruct (orders_submitted_matches_seen ascii_upper nat nat flaky 100000)
    as (Hcount & _ & _ & Hfailed).
  split.
  - eexists _, _. split; [vm_compute; reflexivity|].
    split; [reflexivity|].
    eapply (Hcount 0%nat [aapl; aapl_again; aapl; msft]).
    vm_compute. reflexivity.
  - eapply (Hfailed (initial 0%nat)
              {| seen_symbols := ∅; orders_submitted := 0; broker := 1%nat |}
              aapl (mkRequest (lit "AAPL") 11000) (BrokerError 403)).
    + vm_compute. reflexivity.
    + vm_compute. reflexivity.
    + vm_compute. reflexivity.
Defined.

(** * Further properties of [main.py] *)

(** ** More on the order of binary64 *)

Section FloatOrderMore.

Lemma SFcompare_None (x y : spec_float) :
  SFcompare x y = None -> x = S754_nan \/ y = S754_nan.
Proof.
  destruct x as [sx|sx| |sx mx ex], y as [sy|sy| |sy my ey]; simpl;
    try (destruct sx); try (destruct sy); try discriminate; auto.
Qed.

Lemma SFleb_trans (x y z : spec_float) :
  SFleb x y = true -> SFleb y z = true -> SFleb x z = true.
Proof.
  unfold SFleb.
  destruct x as [sx|sx| |sx mx ex], y as [sy|sy| |sy my ey],
           z as [sz|sz| |sz mz ez]; simpl;
    try (destruct sx); try (destruct sy); try (destruct sz);
    try congruence.
  all: change (Pos.compare_cont Eq) with Pos.compare.
  all: destruct (Z.compare_spec ex ey), (Z.compare_spec ey ez),
         (Z.compare_spec ex ez); try congruence; try lia.
  all: destruct (Pos.compare_spec mx my), (Pos.compare_spec my mz),
         (Pos.compare_spec mx mz); simpl; try congruence; try lia.
Qed.

Lemma leb_trans (a b c : float) :
  (a <=? b) = true -> (b <=? c) = true -> (a <=? c) = true.
Proof. rewrite !FloatAxioms.leb_spec. apply SFleb_trans. Qed.

(** A float is a number when it compares to itself. *)
Lemma leb_number_l (a b : float) : (a <=? b) = true -> (a <=? a) = true.
Proof.
  rewrite !FloatAxioms.leb_spec. unfold SFleb.
  destruct (Prim2SF a) as [sa|sa| |sa ma ea]; simpl;
    try (destruct sa); try reflexivity; try discriminate.
  all: intros _; change (Pos.compare_cont Eq) with Pos.compare.
  all: by rewrite Z.compare_refl, Pos.compare_refl.
Qed.

Lemma leb_number_r (a b : float) : (a <=? b) = true -> (b <=? b) = true.
Proof.
  rewrite !FloatAxioms.leb_spec. unfold SFleb.
  destruct (Prim2SF b) as [sb|sb| |sb mb eb]; simpl.
  - reflexivity.
  - by destruct sb.
  - destruct (Prim2SF a) as [?|[]| |[]]; discriminate.
  - intros _; change (Pos.compare_cont Eq) with Pos.compare.
    destruct sb; by rewrite Z.compare_refl, Pos.compare_refl.
Qed.

(** Two numbers are always comparable. *)
Lemma leb_false_ltb (a b : float) :
  (a <=? a) = true -> (b <=? b) = true ->
  (a <=? b) = false -> (b <? a) = true.
Proof.
  rewrite !FloatAxioms.leb_spec, FloatAxioms.ltb_spec. unfold SFleb, SFltb.
  intros Ha Hb. rewrite (SFcompare_swap (Prim2SF a) (Prim2SF b)).
  destruct (SFcompare (Prim2SF a) (Prim2SF b)) as [[]|] eqn:E; simpl;
    try congruence.
  apply SFcompare_None in E as [E | E]; rewrite E in *; discriminate.
Qed.

Lemma ltb_false_leb (a b : float) :
  (a <=? a) = true -> (b <=? b) = true ->
  (a <? b) = false -> (b <=? a) = true.
Proof.
  rewrite !FloatAxioms.leb_spec, FloatAxioms.ltb_spec. unfold SFleb, SFltb.
  intros Ha Hb. rewrite (SFcompare_swap (Prim2SF a) (Prim2SF b)).
  destruct (SFcompare (Prim2SF a) (Prim2SF b)) as [[]|] eqn:E; simpl;
    try congruence.
  apply SFcompare_None in E as [E | E]; rewrite E in *; discriminate.
Qed.

(** Arithmetic on a value that is not a number. *)
Lemma mul_nan_r (x : float) : x * nan = nan.
Proof.
  apply Prim2SF_inj. rewrite mul_spec. change (Prim2SF nan) with S754_nan.
  by destruct (Prim2SF x).
Qed.

Lemma mul_nan_l (x : float) : nan * x = nan.
Proof.
  apply Prim2SF_inj. rewrite mul_spec. change (Prim2SF nan) with S754_nan.
  reflexivity.
Qed.

Lemma div_nan_r (x : float) : x / nan = nan.
Proof.
  apply Prim2SF_inj. rewrite div_spec. change (Prim2SF nan) with S754_nan.
  by destruct (Prim2SF x).
Qed.

End FloatOrderMore.

(** ** More on the brackets *)

Section BracketsMore.

(** A percent down that is not a number fails every comparison. *)
Lemma not_number_compare (x c : float) :
  (x <=? x) = false ->
  (x <? c) = false /\ (x <=? c) = false /\
  (c <? x) = false /\ (c <=? x) = false.
Proof.
  intros Hx.
  assert (H1 : (x <=? c) = false).
  { destruct (x <=? c) eqn:E; [|reflexivity].
    apply leb_number_l in E. congruence. }
  assert (H2 : (c <=? x) = false).
  { destruct (c <=? x) eqn:E; [|reflexivity].
    apply leb_number_r in E. congruence. }
  repeat split; try assumption.
  - destruct (x <? c) eqn:E; [|reflexivity]. apply ltb_leb in E. congruence.
  - destruct (c <? x) eqn:E; [|reflexivity]. apply ltb_leb in E. congruence.
Qed.

(** On the numbers that are not negative the brackets are a chain of upper
    bounds. *)
Lemma get_bracket_pct_chain (x : float) :
  (x <=? x) = true -> (x <? 0) = false ->
  get_bracket_pct x =
    Some (if x <=? 25 then 0.05 else if x <=? 50 then 0.10
          else if x <=? 75 then 0.15 else 0.20).
Proof.
  intros Hx Hneg. unfold get_bracket_pct.
  rewrite Hneg, (ltb_false_leb x 0 Hx eq_refl Hneg). simpl.
  destruct (x <=? 25) eqn:H25; [reflexivity|].
  rewrite (leb_false_ltb x 25 Hx eq_refl H25). simpl.
  destruct (x <=? 50) eqn:H50; [reflexivity|].
  rewrite (leb_false_ltb x 50 Hx eq_refl H50). simpl.
  destruct (x <=? 75); reflexivity.
Qed.

Lemma get_bracket_pct_None (x : float) :
  get_bracket_pct x = None <-> (x <? 0) = true.
Proof.
  unfold get_bracket_pct. split.
  - destruct (x <? 0); [reflexivity|].
    destruct ((0 <=? x) && (x <=? 25)); [discriminate|].
    destruct ((25 <? x) && (x <=? 50)); [discriminate|].
    destruct ((50 <? x) && (x <=? 75)); discriminate.
  - intros ->. reflexivity.
Qed.

Lemma get_bracket_pct_values (x b : float) :
  get_bracket_pct x = Some b ->
  b = 0.05 \/ b = 0.10 \/ b = 0.15 \/ b = 0.20.
Proof.
  unfold get_bracket_pct.
  destruct (x <? 0); [discriminate|].
  destruct ((0 <=? x) && (x <=? 25)); [intros [= <-]; auto|].
  destruct ((25 <? x) && (x <=? 50)); [intros [= <-]; auto|].
  destruct ((50 <? x) && (x <=? 75)); intros [= <-]; auto.
Qed.

Lemma get_bracket_pct_not_number (x : float) :
  (x <=? x) = false -> get_bracket_pct x = Some 0.20.
Proof.
  intros Hnan. unfold get_bracket_pct.
  destruct (not_number_compare x 0 Hnan) as (-> & _ & _ & ->).
  destruct (not_number_compare x 25 Hnan) as (_ & _ & -> & _).
  destruct (not_number_compare x 50 Hnan) as (_ & _ & -> & _).
  reflexivity.
Qed.

End BracketsMore.

(** X1: [get_bracket_pct] returns [None] exactly when the percent down is
    below zero; every other input, a value that is not a number included,
    gets one of the four fractions, and a value that is not a number gets
    the top one, 0.20. *)
Theorem get_bracket_pct_range (percent_down : float) :
  (get_bracket_pct percent_down = None <-> (percent_down <? 0) = true) /\
  (forall b, get_bracket_pct percent_down = Some b ->
     b = 0.05 \/ b = 0.10 \/ b = 0.15 \/ b = 0.20) /\
  ((percent_down <=? percent_down) = false ->
     get_bracket_pct percent_down = Some 0.20).
Proof.
  split; [apply get_bracket_pct_None|].
  split; [apply get_bracket_pct_values|apply get_bracket_pct_not_number].
Qed.

Lemma get_bracket_pct_range_witness :
  (get_bracket_pct (-0.5) = None <-> (-0.5 <? 0) = true) /\
  get_bracket_pct nan = Some 0.20.
Proof.
  split.
  - apply (proj1 (get_bracket_pct_range (-0.5))).
  - apply (proj2 (proj2 (get_bracket_pct_range nan))). reflexivity.
Defined.

(** X2: the bracket never shrinks as the percent down grows: for
    [x <= y], both with a bracket, the fraction of [x] is at most that of
    [y]. *)
Theorem get_bracket_pct_monotone (x y bx b_y : float) :
  (x <=? y) = true ->
  get_bracket_pct x = Some bx ->
  get_bracket_pct y = Some b_y ->
  (bx <=? b_y) = true.
Proof.
  intros Hxy Hx Hy.
  assert (Hnx := leb_number_l _ _ Hxy). assert (Hny := leb_number_r _ _ Hxy).
  assert (Hx0 : (x <? 0) = false).
  { destruct (x <? 0) eqn:E; [|reflexivity].
    apply get_bracket_pct_None in E. congruence. }
  assert (Hy0 : (y <? 0) = false).
  { destruct (y <? 0) eqn:E; [|reflexivity].
    apply get_bracket_pct_None in E. congruence. }
  rewrite (get_bracket_pct_chain x Hnx Hx0) in Hx.
  rewrite (get_bracket_pct_chain y Hny Hy0) in Hy.
  assert (Hup : forall c, (y <=? c) = true -> (x <=? c) = true)
    by (intros c; apply leb_trans; assumption).
  destruct (y <=? 25) eqn:Y25.
  { rewrite (Hup 25 Y25) in Hx. by injection Hx as <-; injection Hy as <-. }
  destruct (y <=? 50) eqn:Y50.
  { rewrite (Hup 50 Y50) in Hx.
    destruct (x <=? 25); by injection Hx as <-; injection Hy as <-. }
  destruct (y <=? 75) eqn:Y75.
  { rewrite (Hup 75 Y75) in Hx.
    destruct (x <=? 25), (x <=? 50);
      by injection Hx as <-; injection Hy as <-. }
  destruct (x <=? 25), (x <=? 50), (x <=? 75);
    by injection Hx as <-; injection Hy as <-.
Qed.

Lemma get_bracket_pct_monotone_witness : (0.05 <=? 0.15) = true.
Proof.
  apply (get_bracket_pct_monotone 25 50.5 0.05 0.15); reflexivity.
Defined.

(** ** More on the notional calculator *)

(** X3: [compute_order_notional] returns [None] exactly when the percent
    down is below zero, the trimmed icon is not in the table, or the price
    is [<= 0]; nothing else makes it skip. *)
Theorem compute_order_notional_skips
    (buying_power percent_down : float) (icon : option str)
    (long_ma price : float) (sentiment_raw : option str) :
  compute_order_notional buying_power percent_down icon long_ma price
    sentiment_raw = Ok None
  <-> ((percent_down <? 0) = true \/
       ICON_MULTIPLIERS !! strip (default [] icon) = None \/
       (price <=? 0) = true).
Proof.
  assert (Hnone := get_bracket_pct_None percent_down).
  unfold compute_order_notional, compute_order_notional_with, truediv.
  destruct (get_bracket_pct percent_down) as [b|] eqn:Hb.
  - assert (Hpd : (percent_down <? 0) = false).
    { destruct (percent_down <? 0); [|reflexivity].
      destruct Hnone as [_ H]. by specialize (H eq_refl). }
    destruct (ICON_MULTIPLIERS !! strip (default [] icon)) as [m|];
      [|split; auto].
    destruct (price <=? 0) eqn:Hprice; [split; auto|].
    rewrite (not_leb_zero_nonzero _ Hprice).
    destruct (sentiment_mult_total sentiment_raw) as [sm ->]. simpl.
    split; [discriminate|]. intros [H | [H | H]]; congruence.
  - split; [|reflexivity]. intros _. left. by apply Hnone.
Qed.

Lemma compute_order_notional_skips_witness :
  compute_order_notional 100000 (-1) (Some [0x1f48e%N]) 110 100 None
  = Ok None /\
  ((10 <? 0) = true \/
   ICON_MULTIPLIERS !! strip (default [] (Some [0x1f48e%N])) = None \/
   (0 <=? 0) = true).
Proof.
  split.
  - apply (proj2 (compute_order_notional_skips 100000 (-1)
                    (Some [0x1f48e%N]) 110 100 None)).
    left. reflexivity.
  - apply (proj1 (compute_order_notional_skips 100000 10
                    (Some [0x1f48e%N]) 110 0 None)).
    vm_compute. reflexivity.
Defined.

(** X4: every factor the calculator takes from a table or from the
    sentiment cell is positive: the sentiment multiplier is a number above
    zero, an icon multiplier lies in (0, 1] and a bracket in (0, 0.20]. *)
Theorem scaling_factors_positive :
  (forall sentiment_raw m,
     sentiment_mult sentiment_raw = Ok m -> (0 <? m) = true) /\
  (forall icon m,
     ICON_MULTIPLIERS !! icon = Some m ->
     (0 <? m) = true /\ (m <=? 1) = true) /\
  (forall percent_down b,
     get_bracket_pct percent_down = Some b ->
     (0 <? b) = true /\ (b <=? 0.20) = true).
Proof.
  split; [|split].
  - intros raw m. unfold sentiment_mult.
    destruct raw as [raw|]; [|by intros [= <-]].
    case_bool_decide; [|by intros [= <-]].
    destruct (safe_float (Some raw)) as [[v|]|]; simpl;
      [|by intros [= <-]|discriminate].
    destruct (0 <? v) eqn:Hv; by intros [= <-].
  - intros icon m Hm.
    destruct (decide (icon ∈
      [[0x1f48e]; [0x1f4a5]; [0x1f680]; [0x2728]; [0x1f4ca]]%N))
      as [Hin|Hn]; [|by rewrite (lookup_icon_None icon Hn) in Hm].
    revert Hm. rewrite !elem_of_cons, elem_of_nil in Hin.
    destruct Hin as [-> | [-> | [-> | [-> | [-> | []]]]]];
      vm_compute; by intros [= <-].
  - intros pd b Hb.
    destruct (get_bracket_pct_values pd b Hb) as [-> | [-> | [-> | ->]]];
      by vm_compute.
Qed.

Lemma scaling_factors_positive_witness :
  (0 <? 1e300) = true /\
  ((0 <? 0.7) = true /\ (0.7 <=? 1) = true) /\
  ((0 <? 0.15) = true /\ (0.15 <=? 0.20) = true).
Proof.
  destruct scaling_factors_positive as (Hs & Hi & Hb).
  split; [|split].
  - apply (Hs (Some (lit "1e300"))). vm_compute. reflexivity.
  - apply (Hi [0x2728%N]). vm_compute. reflexivity.
  - apply (Hb 60). vm_compute. reflexivity.
Defined.

(** With a bracket and an icon, a price that is not a number makes the
    notional not a number, whatever the other inputs. *)
Lemma compute_order_notional_nan_price bp pd icon lma sraw b m :
  get_bracket_pct pd = Some b ->
  ICON_MULTIPLIERS !! strip (default [] icon) = Some m ->
  compute_order_notional bp pd icon lma nan sraw = Ok (Some nan).
Proof.
  intros Hb Hm.
  unfold compute_order_notional, compute_order_notional_with, truediv.
  rewrite Hb, Hm. change (nan <=? 0) with false. change (nan =? 0) with false.
  destruct (sentiment_mult_total sraw) as [sm ->]. simpl.
  by rewrite div_nan_r, mul_nan_r, mul_nan_l.
Qed.

(** ** Surrounding whitespace *)

Section Padding.

Lemma lstrip_padding (ws s : str) :
  forallb isspace ws = true -> lstrip (ws ++ s) = lstrip s.
Proof.
  induction ws as [|c ws IH]; [reflexivity|]. simpl.
  destruct (isspace c); [exact IH | discriminate].
Qed.

Lemma lstrip_spaces (ws : str) : forallb isspace ws = true -> lstrip ws = [].
Proof.
  induction ws as [|c ws IH]; [reflexivity|]. simpl.
  destruct (isspace c); [exact IH | discriminate].
Qed.

Lemma lstrip_blank (s : str) : lstrip s = [] -> forallb isspace s = true.
Proof.
  induction s as [|c s IH]; [reflexivity|]. simpl.
  destruct (isspace c); [exact IH | discriminate].
Qed.

Lemma lstrip_app (s r : str) : lstrip s ≠ [] -> lstrip (s ++ r) = lstrip s ++ r.
Proof.
  induction s as [|c s IH]; [by intros []|]. simpl.
  destruct (isspace c); [exact IH | reflexivity].
Qed.

Lemma rstrip_padding (s ws : str) :
  forallb isspace ws = true -> rstrip (s ++ ws) = rstrip s.
Proof.
  intros Hws. unfold rstrip. rewrite rev_app_distr, lstrip_padding;
    [reflexivity|].
  rewrite forallb_forall in *. intros c Hc. apply Hws.
  by apply in_rev.
Qed.

(** [strip] does not see whitespace around its argument. *)
Lemma strip_padding (ws s ws' : str) :
  forallb isspace ws = true -> forallb isspace ws' = true ->
  strip (ws ++ s ++ ws') = strip s.
Proof.
  intros Hws Hws'. unfold strip. rewrite lstrip_padding by assumption.
  destruct (lstrip s) as [|c t] eqn:Hs.
  - rewrite lstrip_padding by (by apply lstrip_blank).
    by rewrite lstrip_spaces.
  - rewrite lstrip_app by (rewrite Hs; discriminate).
    rewrite Hs. by apply rstrip_padding.
Qed.

End Padding.

(** X5: whitespace around a cell does not count.  [safe_float], the
    sentiment multiplier, the icon lookup of [compute_order_notional] and
    the normalized symbol of a row give the same result for a cell and for
    the cell with whitespace before and after it. *)
Theorem surrounding_whitespace_ignored (ws s ws' : str) :
  forallb isspace ws = true ->
  forallb isspace ws' = true ->
  safe_float (Some (ws ++ s ++ ws')) = safe_float (Some s) /\
  sentiment_mult (Some (ws ++ s ++ ws')) = sentiment_mult (Some s) /\
  (forall buying_power percent_down long_ma price sentiment_raw,
     compute_order_notional buying_power percent_down
       (Some (ws ++ s ++ ws')) long_ma price sentiment_raw
     = compute_order_notional buying_power percent_down (Some s) long_ma
         price sentiment_raw) /\
  (forall upper rest,
     row_symbol upper ((ws ++ s ++ ws') :: rest)
     = row_symbol upper (s :: rest)).
Proof.
  intros Hws Hws'.
  assert (Hstrip := strip_padding ws s ws' Hws Hws').
  assert (Hsafe : safe_float (Some (ws ++ s ++ ws')) = safe_float (Some s))
    by (by rewrite !safe_float_unfold, Hstrip).
  split; [exact Hsafe|]. split; [|split].
  - unfold sentiment_mult. by rewrite Hstrip, Hsafe.
  - intros bp pd lma price sraw.
    unfold compute_order_notional, compute_order_notional_with. simpl.
    by rewrite Hstrip.
  - intros upper rest. unfold row_symbol, cell. simpl. by rewrite Hstrip.
Qed.

Lemma surrounding_whitespace_ignored_witness :
  safe_float (Some ([32; 0xa0]%N ++ lit "12.5%" ++ [9; 0x2003]%N))
  = safe_float (Some (lit "12.5%")) /\
  row_symbol ascii_upper
    (([32; 0xa0]%N ++ lit "aapl" ++ [9; 0x2003]%N) :: [])
  = row_symbol ascii_upper (lit "aapl" :: []).
Proof.
  destruct (surrounding_whitespace_ignored [32; 0xa0]%N (lit "12.5%")
              [9; 0x2003]%N eq_refl eq_refl) as (H1 & _).
  destruct (surrounding_whitespace_ignored [32; 0xa0]%N (lit "aapl")
              [9; 0x2003]%N eq_refl eq_refl) as (_ & _ & _ & H4).
  split; [exact H1 | exact (H4 ascii_upper [])].
Defined.

(** ** The configuration *)

Import Startup.

Section Configuration.

Lemma get_env_var_Found (env : environ) (name val : str) :
  get_env_var env name = Found val <-> env !! name = Some val /\ val ≠ [].
Proof.
  unfold get_env_var. destruct (env !! name) as [v|].
  - case_bool_decide as Hv; split.
    + discriminate.
    + intros [[= ->] Hne]. contradiction.
    + intros [= ->]. auto.
    + intros [[= ->] _]. reflexivity.
  - split; [discriminate | intros [[=] _]].
Qed.

Lemma get_env_var_RuntimeError (env : environ) (name n : str) :
  get_env_var env name = RuntimeError n <->
  n = name /\ (env !! name = None \/ env !! name = Some []).
Proof.
  unfold get_env_var. destruct (env !! name) as [v|].
  - case_bool_decide as Hv; split.
    + intros [= <-]. subst v. auto.
    + intros [-> _]. reflexivity.
    + discriminate.
    + intros [_ [[=] | [= ->]]]. contradiction.
  - split; [intros [= <-]; auto | intros [-> _]; reflexivity].
Qed.

End Configuration.

(** X6: [get_alpaca_client] gets its client arguments exactly when
    ALPACA_API_KEY and ALPACA_API_SECRET are both set and not empty; they
    are then passed on unchanged, with live trading, and the base URL
    override is the value of ALPACA_BASE_URL unless that is unset or empty.
    Otherwise a [RuntimeError] names the first of the two required
    variables that is unset or empty. *)
Theorem trading_client_args_spec (env : environ) :
  (forall args,
     trading_client_args env = Found args ->
     env !! lit "ALPACA_API_KEY" = Some (api_key args) /\
     api_key args ≠ [] /\
     env !! lit "ALPACA_API_SECRET" = Some (secret_key args) /\
     secret_key args ≠ [] /\
     paper args = false /\
     (forall url, url_override args = Some url <->
        env !! lit "ALPACA_BASE_URL" = Some url /\ url ≠ [])) /\
  (forall name,
     trading_client_args env = RuntimeError name ->
     (name = lit "ALPACA_API_KEY" /\
      (env !! lit "ALPACA_API_KEY" = None \/
       env !! lit "ALPACA_API_KEY" = Some [])) \/
     (name = lit "ALPACA_API_SECRET" /\
      (exists key, env !! lit "ALPACA_API_KEY" = Some key /\ key ≠ []) /\
      (env !! lit "ALPACA_API_SECRET" = None \/
       env !! lit "ALPACA_API_SECRET" = Some []))).
Proof.
  unfold trading_client_args. split.
  - intros args.
    destruct (get_env_var env (lit "ALPACA_API_KEY")) as [key|] eqn:Hkey;
      [|discriminate].
    destruct (get_env_var env (lit "ALPACA_API_SECRET")) as [sec|] eqn:Hsec;
      [|discriminate].
    apply get_env_var_Found in Hkey as [Hkey Hkne].
    apply get_env_var_Found in Hsec as [Hsec Hsne].
    intros [= <-]. simpl.
    do 5 (split; [assumption || reflexivity|]).
    intros url. destruct (env !! lit "ALPACA_BASE_URL") as [u|].
    + case_bool_decide as Hu; split.
      * discriminate.
      * intros [[= ->] Hne]. contradiction.
      * by intros [= <-].
      * by intros [[= ->] _].
    + split; [discriminate | by intros [[=] _]].
  - intros name.
    destruct (get_env_var env (lit "ALPACA_API_KEY")) as [key|n1] eqn:Hkey.
    + destruct (get_env_var env (lit "ALPACA_API_SECRET")) as [sec|n2]
        eqn:Hsec; [discriminate|].
      intros [= <-]. right.
      apply get_env_var_Found in Hkey.
      apply get_env_var_RuntimeError in Hsec as [-> Hsec]. eauto.
    + intros [= <-]. left.
      by apply get_env_var_RuntimeError in Hkey.
Qed.

Lemma trading_client_args_spec_witness :
  (exists args,
     trading_client_args
       {[ lit "ALPACA_API_KEY" := lit "k";
          lit "ALPACA_API_SECRET" := lit "s";
          lit "ALPACA_BASE_URL" := [] ]} = Found args /\
     api_key args ≠ [] /\ paper args = false) /\
  trading_client_args {[ lit "ALPACA_API_SECRET" := lit "s" ]}
  = RuntimeError (lit "ALPACA_API_KEY").
Proof.
  split.
  - eexists. split; [vm_compute; reflexivity|].
    edestruct (proj1 (trading_client_args_spec
                        {[ lit "ALPACA_API_KEY" := lit "k";
                           lit "ALPACA_API_SECRET" := lit "s";
                           lit "ALPACA_BASE_URL" := [] ]}))
      as (_ & Hkey & _ & _ & Hpaper & _);
      [vm_compute; reflexivity|].
    split; [exact Hkey | exact Hpaper].
  - destruct (trading_client_args {[ lit "ALPACA_API_SECRET" := lit "s" ]})
      as [args|name] eqn:E; [vm_compute in E; discriminate|].
    destruct (proj2 (trading_client_args_spec
                       {[ lit "ALPACA_API_SECRET" := lit "s" ]}) name E)
      as [[-> _] | [_ [[key [Hk _]] _]]]; [reflexivity|].
    vm_compute in Hk. discriminate.
Defined.

(** ** More on the row loop *)

Import Trace.

Section PipelineMore.

Variable upper : str -> str.
Variables World Order : Type.
Variable submit_order : World -> MarketOrderRequest -> World * Result Order.

#[local] Abbreviation process_row :=
  (process_row upper World Order submit_order).
#[local] Abbreviation process_rows :=
  (process_rows upper World Order submit_order).
#[local] Abbreviation row_symbol := (row_symbol upper).
#[local] Abbreviation row_decision := (row_decision upper).
#[local] Abbreviation RunState := (RunState World).
#[local] Abbreviation Event := (Event Order).

#[local] Arguments compute_order_notional : simpl never.
#[local] Arguments safe_float : simpl never.
#[local] Arguments cell : simpl never.
#[local] Arguments round : simpl never.

(** What a row that passes the validation looks like. *)
Lemma row_decision_inv bp row req :
  row_decision bp row = Ok (inr req) ->
  row_symbol row ≠ [] /\
  exists price pct_down long_ma n,
    safe_float (Some (cell row COL_PRICE)) = Ok (Some price) /\
    safe_float (Some (cell row COL_PCT_DOWN)) = Ok (Some pct_down) /\
    safe_float (Some (cell row COL_LONG_MA)) = Ok (Some long_ma) /\
    compute_order_notional bp pct_down (Some (cell row COL_ICON)) long_ma
      price (Some (cell row COL_SENTIMENT)) = Ok (Some n) /\
    (n <? MIN_NOTIONAL) = false /\
    req = mkRequest (row_symbol row) (round n 2).
Proof.
  unfold Main.row_decision. case_bool_decide as Hsym; [discriminate|].
  destruct (safe_float (Some (cell row COL_PRICE))) as [[p|]|]; simpl;
    try discriminate;
  destruct (safe_float (Some (cell row COL_PCT_DOWN))) as [[c|]|]; simpl;
    try discriminate;
  destruct (safe_float (Some (cell row COL_LONG_MA))) as [[m|]|]; simpl;
    try discriminate.
  destruct (compute_order_notional bp c _ m p _) as [[n|]|] eqn:Hn; simpl;
    try discriminate.
  destruct (n <? MIN_NOTIONAL) eqn:Hmin; [discriminate|].
  intros [= <-]. split; [assumption|]. by exists p, c, m, n.
Qed.

Lemma row_decision_priced bp row price pct_down long_ma n :
  row_symbol row ≠ [] ->
  safe_float (Some (cell row COL_PRICE)) = Ok (Some price) ->
  safe_float (Some (cell row COL_PCT_DOWN)) = Ok (Some pct_down) ->
  safe_float (Some (cell row COL_LONG_MA)) = Ok (Some long_ma) ->
  compute_order_notional bp pct_down (Some (cell row COL_ICON)) long_ma
    price (Some (cell row COL_SENTIMENT)) = Ok (Some n) ->
  row_decision bp row =
    if n <? MIN_NOTIONAL then Ok (inl BelowMinNotional)
    else Ok (inr (mkRequest (row_symbol row) (round n 2))).
Proof.
  intros Hsym Hprice Hpct Hma Hn. unfold Main.row_decision.
  rewrite bool_decide_eq_false_2 by assumption.
  rewrite Hprice, Hpct, Hma. simpl. rewrite Hn. reflexivity.
Qed.

(** A notional is only computed from a percent down that is not negative,
    a known icon and a price that is not [<= 0]. *)
Lemma compute_order_notional_Some_inv bp pd icon lma price sraw n :
  compute_order_notional bp pd icon lma price sraw = Ok (Some n) ->
  (pd <? 0) = false /\ (price <=? 0) = false /\
  is_Some (ICON_MULTIPLIERS !! strip (default [] icon)).
Proof.
  unfold compute_order_notional, compute_order_notional_with.
  destruct (get_bracket_pct pd) as [b|] eqn:Hb; [|discriminate].
  destruct (ICON_MULTIPLIERS !! strip (default [] icon)) as [m|];
    [|discriminate].
  destruct (price <=? 0); [discriminate|]. intros _.
  repeat split; [|eauto].
  destruct (pd <? 0) eqn:E; [|reflexivity].
  apply get_bracket_pct_None in E. congruence.
Qed.

(** A row whose validation gives a request reaches the brokerage unless its
    symbol is already seen. *)
Lemma process_row_request bp (st : RunState) row req :
  row_decision bp row = Ok (inr req) ->
  row_symbol row ∉ seen_symbols st ->
  exists st' ev, process_row bp st row = Ok (st', ev) /\
                 request_of ev = Some req.
Proof.
  intros Hd Hseen. destruct (row_decision_symbol _ _ _ _ Hd) as [_ Hne].
  rewrite process_row_unfold.
  rewrite !bool_decide_eq_false_2 by assumption. rewrite Hd. simpl.
  destruct (submit_order (broker st) req) as [w [order|e]]; by eexists _, _.
Qed.

(** X7: the floor does not stop a notional that is not a number.  A row
    whose price cell parses to such a value (the text nan), with a symbol
    not yet seen, a percent down that has a bracket and a known icon, is
    handed to the brokerage with a notional that is not a number. *)
Theorem nan_price_is_ordered bp (st : RunState) row pct_down long_ma b m :
  row_symbol row ≠ [] ->
  row_symbol row ∉ seen_symbols st ->
  safe_float (Some (cell row COL_PRICE)) = Ok (Some nan) ->
  safe_float (Some (cell row COL_PCT_DOWN)) = Ok (Some pct_down) ->
  safe_float (Some (cell row COL_LONG_MA)) = Ok (Some long_ma) ->
  get_bracket_pct pct_down = Some b ->
  ICON_MULTIPLIERS !! strip (cell row COL_ICON) = Some m ->
  exists st' ev,
    process_row bp st row = Ok (st', ev) /\
    request_of ev = Some (mkRequest (row_symbol row) nan).
Proof.
  intros Hsym Hseen Hprice Hpct Hma Hb Hm.
  apply process_row_request; [|assumption].
  rewrite (row_decision_priced bp row nan pct_down long_ma nan)
    by eauto using compute_order_notional_nan_price.
  reflexivity.
Qed.

(** X8: what the loop never hands to the brokerage.  A request is only made
    for a row with at least 16 cells whose normalized symbol is not empty
    and not yet seen, whose price, percent down and long moving average
    parse, with a percent down not below zero, a price not [<= 0] and a
    known icon; the request carries that symbol and the notional, not below
    1.0 before rounding, rounded to two decimals. *)
Theorem request_requires bp (st st' : RunState) row (ev : Event) req :
  process_row bp st row = Ok (st', ev) ->
  request_of ev = Some req ->
  symbol req = row_symbol row /\
  row_symbol row ≠ [] /\
  (row_symbol row ∉ seen_symbols st) /\
  (16 <= length row)%nat /\
  exists price pct_down long_ma n,
    safe_float (Some (cell row COL_PRICE)) = Ok (Some price) /\
    safe_float (Some (cell row COL_PCT_DOWN)) = Ok (Some pct_down) /\
    safe_float (Some (cell row COL_LONG_MA)) = Ok (Some long_ma) /\
    (pct_down <? 0) = false /\
    (price <=? 0) = false /\
    is_Some (ICON_MULTIPLIERS !! strip (cell row COL_ICON)) /\
    compute_order_notional bp pct_down (Some (cell row COL_ICON)) long_ma
      price (Some (cell row COL_SENTIMENT)) = Ok (Some n) /\
    (n <? 1.0) = false /\
    notional req = round n 2.
Proof.
  intros Hrow Hreq.
  assert (Hd : row_decision bp row = Ok (inr req) /\
               symbol req ∉ seen_symbols st).
  { apply process_row_inv in Hrow
      as [(? & -> & _) | [(r & ? & -> & Hd & Hnew & _)
                         | (r & ? & -> & Hd & Hnew & _)]];
      simpl in Hreq; [discriminate | ..]; injection Hreq as ->; auto. }
  destruct Hd as [Hd Hnew].
  destruct (row_decision_symbol _ _ _ _ Hd) as [Hsym Hne].
  destruct (row_decision_inv _ _ _ Hd)
    as (_ & price & pd & lma & n & Hp & Hc & Hm & Hn & Hmin & ->).
  destruct (compute_order_notional_Some_inv _ _ _ _ _ _ _ Hn)
    as (Hpd & Hprice & Hicon). simpl in Hicon.
  split; [assumption|]. split; [assumption|].
  split; [by rewrite <- Hsym|]. split.
  - unfold cell, COL_ICON in Hicon.
    destruct (row !! 15%nat) as [c|] eqn:E.
    + apply lookup_lt_Some in E. exact E.
    + simpl in Hicon. destruct Hicon as [x Hx]. vm_compute in Hx.
      discriminate.
  - exists price, pd, lma, n. by repeat (split; [assumption|]).
Qed.

(** *** The brokerage and the books *)

(** X9: the brokerage is called once for each request of the trace, in the
    order of the rows, and for nothing else: its final state is the one the
    requests lead to, and the events that are not skips are its answers. *)
Theorem brokerage_sees_the_requests bp rows :
  forall (st st' : RunState) (evs : list Event),
  process_rows bp st rows = Ok (st', evs) ->
  broker st' = replay submit_order (broker st) (requests evs) /\
  List.filter is_request evs
  = answers submit_order (broker st) (requests evs).
Proof.
  induction rows as [|row rows IH]; intros st st' evs Hrows.
  - by injection Hrows as <- <-.
  - apply process_rows_cons_inv in Hrows as (st1 & ev & evs' & -> & H1 & H2).
    destruct (IH _ _ _ H2) as [Hw Hans].
    apply process_row_inv in H1
      as [(why & -> & ->)
         | [(req & order & -> & _ & _ & Hsub & _)
           | (req & e & -> & _ & _ & Hsub & _)]].
    + by split.
    + unfold requests, replay in *. simpl. rewrite Hsub. simpl.
      by rewrite Hw, Hans.
    + unfold requests, replay in *. simpl. rewrite Hsub. simpl.
      by rewrite Hw, Hans.
Qed.

(** X10: the books follow the accepted orders: after the loop
    [seen_symbols] is what it was plus the symbols of the orders the
    brokerage accepted, and [orders_submitted] has grown by their number. *)
Theorem books_follow_accepted_orders bp rows :
  forall (st st' : RunState) (evs : list Event),
  process_rows bp st rows = Ok (st', evs) ->
  seen_symbols st'
  = seen_symbols st ∪ list_to_set (symbol <$> submitted evs) /\
  orders_submitted st' = (orders_submitted st + length (submitted evs))%nat.
Proof.
  induction rows as [|row rows IH]; intros st st' evs Hrows.
  - injection Hrows as <- <-. simpl. split; [set_solver | lia].
  - apply process_rows_cons_inv in Hrows as (st1 & ev & evs' & -> & H1 & H2).
    destruct (IH _ _ _ H2) as [Hseen Hcount]. rewrite Hseen, Hcount.
    apply process_row_inv in H1
      as [(why & -> & ->)
         | [(req & order & -> & _ & _ & _ & -> & ->)
           | (req & e & -> & _ & _ & _ & -> & ->)]];
      unfold submitted; simpl; split; (set_solver || lia).
Qed.

(** X11: no symbol is bought twice in a run: the symbols of the orders the
    brokerage accepted are pairwise different, none of them is empty, and
    none was already in [seen_symbols] when the loop started. *)
Theorem accepted_symbols_distinct bp rows :
  forall (st st' : RunState) (evs : list Event),
  process_rows bp st rows = Ok (st', evs) ->
  NoDup (symbol <$> submitted evs) /\
  forall s, s ∈ symbol <$> submitted evs -> s ≠ [] /\ s ∉ seen_symbols st.
Proof.
  induction rows as [|row rows IH]; intros st st' evs Hrows.
  - injection Hrows as <- <-. split; [constructor|]. by intros s []%elem_of_nil.
  - apply process_rows_cons_inv in Hrows as (st1 & ev & evs' & -> & H1 & H2).
    destruct (IH _ _ _ H2) as [Hnodup Hfresh].
    apply process_row_inv in H1
      as [(why & -> & ->)
         | [(req & order & -> & Hd & Hnew & _ & Hseen & _)
           | (req & e & -> & _ & _ & _ & Hseen & _)]];
      unfold submitted in *; simpl.
    + by split.
    + destruct (row_decision_symbol _ _ _ _ Hd) as [Hsym Hne].
      split.
      * apply NoDup_cons. split; [|assumption].
        intros Hin. apply Hfresh in Hin as [_ Hin]. rewrite Hseen in Hin.
        set_solver.
      * intros s [-> | Hin]%elem_of_cons; [split; congruence|].
        apply Hfresh in Hin as [? Hin]. rewrite Hseen in Hin.
        split; [assumption | set_solver].
    + split; [assumption|]. intros s Hin.
      apply Hfresh in Hin as [? Hin]. by rewrite Hseen in Hin.
Qed.

(** *** Rows that fail the validation *)

Lemma process_rows_app_inv bp pre post :
  forall (st st2 : RunState) (evs : list Event),
  process_rows bp st (pre ++ post) = Ok (st2, evs) ->
  exists st1 evs1 evs2,
    process_rows bp st pre = Ok (st1, evs1) /\
    process_rows bp st1 post = Ok (st2, evs2) /\
    evs = evs1 ++ evs2 /\ length evs1 = length pre.
Proof.
  intros st st2 evs Hrows.
  destruct (process_rows_total upper World Order submit_order bp pre st)
    as (st1 & evs1 & Hpre & Hlen).
  destruct (process_rows_total upper World Order submit_order bp post st1)
    as (st2' & evs2 & Hpost & _).
  rewrite (process_rows_app _ _ _ _ _ _ _ _ _ _ _ _ Hpre Hpost) in Hrows.
  injection Hrows as <- <-. by eexists _, _, _.
Qed.

(** X12: a row that fails the validation has no effect on the other rows:
    it yields a skip, and without it the run ends in the same state with
    the same events for the rows before and after it. *)
Theorem invalid_row_has_no_effect
    bp pre row post why (st st' : RunState) (evs : list Event) :
  row_decision bp row = Ok (inl why) ->
  process_rows bp st (pre ++ row :: post) = Ok (st', evs) ->
  exists evs1 why' evs2,
    evs = evs1 ++ Skipped why' :: evs2 /\
    length evs1 = length pre /\
    process_rows bp st (pre ++ post) = Ok (st', evs1 ++ evs2).
Proof.
  intros Hd Hrows.
  apply process_rows_app_inv in Hrows
    as (st1 & evs1 & evs2 & Hpre & Hrest & -> & Hlen).
  apply process_rows_cons_inv in Hrest
    as (st2 & ev & evs3 & -> & Hrow & Hpost).
  assert (Hskip : exists why', ev = Skipped why' /\ st2 = st1).
  { revert Hrow. rewrite process_row_unfold.
    case_bool_decide; [intros [= <- <-]; eauto|].
    case_bool_decide; [intros [= <- <-]; eauto|].
    rewrite Hd. simpl. intros [= <- <-]. eauto. }
  destruct Hskip as (why' & -> & ->).
  exists evs1, why', evs3. split; [reflexivity|]. split; [assumption|].
  by eapply process_rows_app.
Qed.

End PipelineMore.

(** ** The further properties on concrete sheets *)

Lemma nan_price_is_ordered_witness :
  exists st' ev,
    process_row ascii_upper nat nat filling 100000 (initial 0%nat)
      (sheet_row (lit "AAPL") (lit "nan") (lit "10%") (lit "110") gem
         (lit "2"))
    = Ok (st', ev) /\
    request_of ev
    = Some (mkRequest
              (row_symbol ascii_upper
                 (sheet_row (lit "AAPL") (lit "nan") (lit "10%") (lit "110")
                    gem (lit "2")))
              nan).
Proof.
  apply (nan_price_is_ordered ascii_upper nat nat filling 100000
           (initial 0%nat)
           (sheet_row (lit "AAPL") (lit "nan") (lit "10%") (lit "110") gem
              (lit "2"))
           10 110 0.05 1.0).
  - vm_compute. discriminate.
  - apply not_elem_of_empty.
  - vm_compute. reflexivity.
  - vm_compute. reflexivity.
  - vm_compute. reflexivity.
  - vm_compute. reflexivity.
  - vm_compute. reflexivity.
Defined.

Lemma request_requires_witness :
  (16 <= length aapl)%nat /\
  symbol (mkRequest (lit "AAPL") 11000) = row_symbol ascii_upper aapl.
Proof.
  destruct (process_row ascii_upper nat nat filling 100000 (initial 0%nat)
              aapl) as [[st' ev]|e] eqn:Hrow;
    [|vm_compute in Hrow; discriminate].
  assert (Hreq : request_of ev = Some (mkRequest (lit "AAPL") 11000)).
  { pose proof Hrow as H. vm_compute in H. by injection H as <- <-. }
  destruct (request_requires ascii_upper nat nat filling 100000
              (initial 0%nat) st' aapl ev (mkRequest (lit "AAPL") 11000)
              Hrow Hreq)
    as (Hsym & _ & _ & Hlen & _).
  split; [exact Hlen | exact Hsym].
Defined.

Lemma brokerage_sees_the_requests_witness :
  exists st' evs,
    process_rows ascii_upper nat nat flaky 100000 (initial 0%nat)
      [aapl; aapl_unpriced; aapl_again; msft] = Ok (st', evs) /\
    broker st' = 3%nat /\
    broker st' = replay flaky 0%nat (requests evs).
Proof.
  eexists _, _. split; [vm_compute; reflexivity|].
  split; [reflexivity|].
  eapply (proj1 (brokerage_sees_the_requests ascii_upper nat nat flaky
                   100000 [aapl; aapl_unpriced; aapl_again; msft]
                   (initial 0%nat) _ _ _)).
Unshelve.
  vm_compute. reflexivity.
Defined.

Lemma books_follow_accepted_orders_witness :
  exists st' evs,
    process_rows ascii_upper nat nat flaky 100000 (initial 0%nat)
      [aapl; aapl_unpriced; aapl_again; msft] = Ok (st', evs) /\
    orders_submitted st' = (0 + length (submitted evs))%nat.
Proof.
  eexists _, _. split; [vm_compute; reflexivity|].
  eapply (proj2 (books_follow_accepted_orders ascii_upper nat nat flaky
                   100000 [aapl; aapl_unpriced; aapl_again; msft]
                   (initial 0%nat) _ _ _)).
Unshelve.
  vm_compute. reflexivity.
Defined.

Lemma accepted_symbols_distinct_witness :
  exists st' evs,
    process_rows ascii_upper nat nat filling 100000 (initial 0%nat)
      [aapl; aapl_again; msft; aapl] = Ok (st', evs) /\
    length (submitted evs) = 2%nat /\
    NoDup (symbol <$> submitted evs).
Proof.
  destruct (process_rows ascii_upper nat nat filling 100000 (initial 0%nat)
              [aapl; aapl_again; msft; aapl]) as [[st' evs]|e] eqn:Hrows;
    [|vm_compute in Hrows; discriminate].
  pose proof (proj1 (accepted_symbols_distinct ascii_upper nat nat filling
                       100000 [aapl; aapl_again; msft; aapl]
                       (initial 0%nat) st' evs Hrows)) as Hdistinct.
  exists st', evs. split; [reflexivity|]. split; [|exact Hdistinct].
  vm_compute in Hrows. by injection Hrows as <- <-.
Defined.

Lemma invalid_row_has_no_effect_witness :
  exists st' evs,
    process_rows ascii_upper nat nat filling 100000 (initial 0%nat)
      ([aapl] ++ aapl_unpriced :: [msft]) = Ok (st', evs) /\
    exists evs1 why' evs2,
      evs = evs1 ++ Skipped why' :: evs2 /\
      length evs1 = length [aapl] /\
      process_rows ascii_upper nat nat filling 100000 (initial 0%nat)
        ([aapl] ++ [msft]) = Ok (st', evs1 ++ evs2).
Proof.
  eexists _, _. split; [vm_compute; reflexivity|].
  eapply (invalid_row_has_no_effect ascii_upper nat nat filling 100000
            [aapl] aapl_unpriced [msft] MissingNumeric (initial 0%nat)).
  - vm_compute. reflexivity.
  - vm_compute. reflexivity.
Defined.
